(** * Verification of the qiskit-ibm-runtime documentation notebooks

    The repository consists of tutorial notebooks.  The code they own is
    glue around external libraries and a remote service:

    - [heavy_projector]  (docs/tutorials, "Quantum Volume as an
      expectation value"): median thresholding of a probability dictionary;
    - [expectation_value_runner]: input validation and submission of a run
      request to the runtime service;
    - [main]: the uploaded runtime program, which calls the transpiler, the
      backend and the mthree measurement-mitigation library;
    - [meta]: the program metadata dictionary.

    Python dictionaries are finite maps ([gmap]), Python exceptions are an
    error monad, objects mutated by calls (the service handle) are explicit
    state.  [heavy_projector] is given twice: in [Float64] on IEEE doubles,
    as the code computes it, and in [HeavyProjector] on exact rationals
    ([Q]), where the median is the mathematical one. *)

From Stdlib Require Import QArith Lqa Ascii.
From Stdlib Require Floats.
From stdpp Require Import gmap strings stringmap list fin_maps sorting.

Set Warnings "-register-all".
Local Open Scope Z_scope.

(** * Python values shared by the notebooks *)

Module Py.

(** An argument that the code tests with [isinstance(x, list)]: either a
    bare object or a Python list of objects. *)
Inductive arg (A : Type) : Type :=
| Bare (a : A)
| PyList (l : list A).
Arguments Bare {A} a.
Arguments PyList {A} l.

(** [x if isinstance(x, list) else [x]] *)
Definition as_list {A} (x : arg A) : list A :=
  match x with PyList l => l | Bare a => [a] end.

(** [l * n] on Python lists: [n] copies of [l] concatenated. *)
Definition list_mul {A} (l : list A) (n : nat) : list A :=
  concat (replicate n l).

(** Exceptions the notebooks' code can raise or propagate. *)
Inductive exn : Type :=
| ValueError (msg : string)
| KeyError (key : string)
| TypeError (msg : string)
| ExternalError (origin : string).

Inductive res (A : Type) : Type :=
| OK (a : A)
| Raise (e : exn).
Arguments OK {A} a.
Arguments Raise {A} e.

Definition bind {A B} (x : res A) (f : A → res B) : res B :=
  match x with OK a => f a | Raise e => Raise e end.

Definition is_ok {A} (x : res A) : bool :=
  match x with OK _ => true | Raise _ => false end.

(** JSON-like values: keyword-argument dictionaries and program metadata. *)
Inductive val : Type :=
| VStr (s : string)
| VInt (z : Z)
| VFloat (q : Q)
| VBool (b : bool)
| VList (l : list val)
| VDict (d : gmap string val).

(** Objects of the SDK.  The notebooks' code never looks inside them. *)
Record QuantumCircuit : Type := Circuit { circuit_name : string }.
Record Backend : Type := MkBackend { name : string }.

(** An expectation operator: a string of diagonal Paulis such as ["ZIZZ"],
    or a dictionary such as [{'1111': 1}]. *)
Inductive operator : Type :=
| OpStr (s : string)
| OpDict (d : gmap string Z).

(** [len(expectation_operators)] for a string, a dictionary or a list. *)
Definition operators_len (x : arg operator) : nat :=
  match x with
  | Bare (OpStr s) => String.length s
  | Bare (OpDict d) => size d
  | PyList l => length l
  end.

(** Values stored in the [inputs] dictionary of a run request. *)
Inductive input : Type :=
| ICircuits (c : arg QuantumCircuit)
| IOperators (o : arg operator)
| IInt (z : Z)
| IKwargs (k : gmap string val)
| IBool (b : bool).

(** What the expectation-value program returns: expectation values, or
    (expectation value, standard deviation) pairs; a single item or an
    array of them. *)
Inductive output : Type :=
| Expvals (v : arg Q)
| ExpvalsStddev (v : arg (Q * Q)).

End Py.

Import Py.

Global Instance res_ret : MRet res := @OK.
Global Instance res_bind : MBind res := λ A B f x, Py.bind x f.
Global Instance res_fmap : FMap res := λ A B f x, Py.bind x (λ a, OK (f a)).

(** * [heavy_projector] in exact arithmetic

    The function on exact rationals: the median is the mathematical one.
    What the code computes on doubles is in [Float64] below. *)

Module HeavyProjector.

Local Open Scope Q_scope.

(** ** [np.median] on a Python list of numbers

    The list is sorted; an odd-length list yields its middle element, an
    even-length list the mean of its two middle elements, and the empty
    list yields [nan], written [None] here. *)

Fixpoint insert_sorted (x : Q) (l : list Q) : list Q :=
  match l with
  | [] => [x]
  | y :: l' => if Qle_bool x y then x :: l else y :: insert_sorted x l'
  end.

Definition sort_values (l : list Q) : list Q := foldr insert_sorted [] l.

Definition median (l : list Q) : option Q :=
  let s := sort_values l in
  let n := length s in
  if Nat.odd n then s !! (n / 2)%nat
  else
    match s !! (n / 2 - 1)%nat, s !! (n / 2)%nat with
    | Some a, Some b => Some ((a + b) / 2)
    | _, _ => None
    end.

(** [val > median_prob]; every comparison with [nan] is false. *)
Definition above (val : Q) (median_prob : option Q) : bool :=
  match median_prob with
  | Some m => negb (Qle_bool val m)
  | None => false
  end.

(** [list(qv_probs.values())] *)
Definition values (qv_probs : gmap string Q) : list Q :=
  (map_to_list qv_probs).*2.

(** One iteration of the [for key, val in qv_probs.items()] loop. *)
Definition loop_body (median_prob : option Q)
    (heavy_strs : gmap string Z) (item : string * Q) : gmap string Z :=
  let '(key, val) := item in
  if above val median_prob then <[key := 1%Z]> heavy_strs else heavy_strs.

Definition heavy_projector (qv_probs : gmap string Q) : gmap string Z :=
  let median_prob := median (values qv_probs) in
  foldl (loop_body median_prob) ∅ (map_to_list qv_probs).

(** The distribution of a two-qubit example. *)
Definition sample_probs : gmap string Q :=
  <["00" := 1 # 2]> (<["01" := 1 # 4]> (<["10" := 1 # 8]> (<["11" := 1 # 8]> ∅))).

End HeavyProjector.

(** * [heavy_projector] on IEEE doubles *)

Module Float64.
Import Floats.
Local Open Scope float_scope.

(** ** [np.median] on a Python list of floats

    The list becomes a float64 array.  If it holds a NaN the median is NaN.
    Otherwise the values are put in order; an odd number of values yields
    the middle one, an even number the mean of the two middle ones, their
    float64 sum divided by 2; no value at all yields NaN. *)

Fixpoint insert_sorted (x : float) (l : list float) : list float :=
  match l with
  | [] => [x]
  | y :: l' => if x <=? y then x :: l else y :: insert_sorted x l'
  end.

Definition sort_values (l : list float) : list float := foldr insert_sorted [] l.

Definition median (l : list float) : float :=
  if existsb is_nan l then nan
  else
    let s := sort_values l in
    let n := length s in
    if Nat.odd n then default nan (s !! (n / 2)%nat)
    else
      match s !! (n / 2 - 1)%nat, s !! (n / 2)%nat with
      | Some a, Some b => (a + b) / 2
      | _, _ => nan
      end.

(** [list(qv_probs.values())] *)
Definition values (qv_probs : gmap string float) : list float :=
  (map_to_list qv_probs).*2.

(** One iteration of the [for key, val in qv_probs.items()] loop, with the
    test [val > median_prob]. *)
Definition loop_body (median_prob : float)
    (heavy_strs : gmap string Z) (item : string * float) : gmap string Z :=
  let '(key, val) := item in
  if median_prob <? val then <[key := 1%Z]> heavy_strs else heavy_strs.

Definition heavy_projector (qv_probs : gmap string float) : gmap string Z :=
  let median_prob := median (values qv_probs) in
  foldl (loop_body median_prob) ∅ (map_to_list qv_probs).

(** The rational number that a double stands for; infinities and NaN stand
    for none. *)
Definition exact_value (x : float) : option Q :=
  match Prim2SF x with
  | S754_zero _ => Some 0%Q
  | S754_finite s m e =>
      Some ((if s then -1 else 1) * inject_Z (Zpos m) * Qpower 2 e)%Q
  | S754_infinity _ | S754_nan => None
  end.

Definition exact_probs (qv_probs : gmap string float) : gmap string Q :=
  omap exact_value qv_probs.

(** A distribution over four outputs.  The probabilities are
    1/8, 1/4 + 2^-54, 1/4 + 2^-53 and 3/8 - 3 * 2^-54: they are all
    different, their sum is 1, and the two middle ones are neighbouring
    doubles. *)
Definition neighbour_probs : gmap string float :=
  <["00" := 0x1p-3]>
    (<["01" := 0x1.0000000000001p-2]>
       (<["10" := 0x1.0000000000002p-2]>
          (<["11" := 0x1.7fffffffffffdp-2]> ∅))).

End Float64.

(** * The runtime service consumed by the notebooks *)

Module Service.

(** Modelled from the spec: the program registry of the service
    ("a program-upload/run interface accepting a metadata schema").  A
    program is the uploaded entry point together with its metadata; the
    entry point receives the [options] and [inputs] dictionaries of a run
    request. *)
Record program : Type := Program {
  program_entry : gmap string string → gmap string input → res output;
  program_metadata : gmap string val;
}.

Record run_request : Type := RunRequest {
  req_program_id : string;
  req_options : gmap string string;
  req_inputs : gmap string input;
}.

(** Modelled from the spec: a job is pending until the remote side has
    executed its program, and completed with the program's outcome
    afterwards ("block on job completion"). *)
Inductive job_status : Type :=
| Pending
| Completed (r : res output).

Record job : Type := Job {
  job_request : run_request;
  job_status_of : job_status;
}.

(** Modelled from the spec: the service handle.  [catalogue] lists the
    backends of the remote side with the instances (hub/group/project or
    plan) that may use them, [instance] is the one of the authenticated
    account, [programs] the uploaded programs and [jobs] the run requests
    submitted so far, oldest first. *)
Record service : Type := QiskitRuntimeService {
  instance : string;
  catalogue : list (Backend * list string);
  programs : gmap string program;
  jobs : list job;
}.

Definition set_programs (f : gmap string program → gmap string program)
    (s : service) : service :=
  QiskitRuntimeService (instance s) (catalogue s) (f (programs s)) (jobs s).

Definition set_jobs (f : list job → list job) (s : service) : service :=
  QiskitRuntimeService (instance s) (catalogue s) (programs s) (f (jobs s)).

(** Modelled from the spec: [service.backends()] ("a service-handle object
    exposing backends()"; "list all the backends available to you").
    The call does not change the handle. *)
Definition available (s : service) (entry : Backend * list string) : bool :=
  bool_decide (instance s ∈ entry.2).

(** Modelled from the spec: [service.backends()], the backends of the
    catalogue that are available to the account. *)
Definition backends (s : service) : list Backend :=
  (filter (λ entry, available s entry = true) (catalogue s)).*1.

(** Modelled from the spec: [service.upload_program(data, metadata)]
    ("accepting a metadata schema (name, description, execution-time
    limit, parameter schema, return-value schema)").  The identifier is
    derived from the program name and differs from every identifier in
    use; [data] is the entry point defined by the uploaded file. *)
Definition program_name (metadata : gmap string val) : res string :=
  match metadata !! "name" with
  | Some (VStr n) => OK n
  | Some _ => Raise (TypeError "name")
  | None => Raise (KeyError "name")
  end.

(** Modelled from the spec: [service.upload_program(data, metadata)]
    registers the program under an identifier not in use and returns the
    identifier. *)
Definition upload_program
    (data : gmap string string → gmap string input → res output)
    (metadata : gmap string val) (s : service) : res string * service :=
  match program_name metadata with
  | OK n =>
      let program_id := fresh_string_of_set (n +:+ "-") (dom (programs s)) in
      (OK program_id,
       set_programs (insert program_id (Program data metadata)) s)
  | Raise e => (Raise e, s)
  end.

(** Modelled from the spec: [service.run(program_id, options, inputs)]
    ("returning a job handle").  The handle is the position of the job in
    [jobs]. *)
Definition run (program_id : string) (options : gmap string string)
    (inputs : gmap string input) (s : service) : res nat * service :=
  match programs s !! program_id with
  | Some _ =>
      (OK (length (jobs s)),
       set_jobs (λ js, js ++ [Job (RunRequest program_id options inputs) Pending]) s)
  | None => (Raise (ExternalError "program not found"), s)
  end.

(** Modelled from the spec: the remote side ("a remote service"; "block on
    job completion").  Executing a pending job completes it with what its
    program returns, or raises, on the request's options and inputs. *)
Definition outcome (s : service) (r : run_request) : res output :=
  match programs s !! req_program_id r with
  | Some p => program_entry p (req_options r) (req_inputs r)
  | None => Raise (ExternalError "program not found")
  end.

(** Modelled from the spec: one step of the remote side, which completes a
    pending job. *)
Inductive remote_step : service → service → Prop :=
| complete_job s i j :
    jobs s !! i = Some j →
    job_status_of j = Pending →
    remote_step s
      (set_jobs (<[i := Job (job_request j) (Completed (outcome s (job_request j)))]>) s).

(** Modelled from the spec: [job.result()] ("a job handle with a blocking
    result() accessor").  [result i s r s'] reads: called on job [i] in
    state [s], the accessor returns (or raises) [r], and the service is in
    state [s'] when it does.  While the job is pending the caller only
    waits for the remote side. *)
Inductive result (i : nat) : service → res output → service → Prop :=
| result_ready s j r :
    jobs s !! i = Some j →
    job_status_of j = Completed r →
    result i s r s
| result_wait s s1 s' j r :
    jobs s !! i = Some j →
    job_status_of j = Pending →
    remote_step s s1 →
    result i s1 r s' →
    result i s r s'.

(** Everything that can happen to the service between two calls of a
    notebook: uploads, run requests and progress of the remote side. *)
Inductive service_step : service → service → Prop :=
| step_upload data metadata s r s' :
    upload_program data metadata s = (r, s') → service_step s s'
| step_run program_id options inputs s r s' :
    run program_id options inputs s = (r, s') → service_step s s'
| step_remote s s' :
    remote_step s s' → service_step s s'.

(** What is known of job [i] once [run] has returned its handle: its
    request is the one submitted, its program is registered, and it is
    pending or completed with the program's outcome. *)
Definition submitted (p : program) (request : run_request) (i : nat)
    (s : service) : Prop :=
  programs s !! req_program_id request = Some p ∧
  ∃ j, jobs s !! i = Some j ∧ job_request j = request ∧
       (job_status_of j = Pending ∨
        job_status_of j
        = Completed (program_entry p (req_options request) (req_inputs request))).

End Service.

(** * The Estimator primitive *)

Module Estimator.

(** [SparsePauliOp.from_list]: Pauli strings with coefficients. *)
Record Observable : Type := SparsePauliOp { paulis : list (string * Z) }.

(** A circuit or observable is passed by index into the session, or as the
    object itself. *)
Inductive ref (A : Type) : Type :=
| Index (i : nat)
| Object (a : A).
Arguments Index {A} i.
Arguments Object {A} a.

Record EstimatorResult : Type := MkEstimatorResult {
  values : list Q;
  metadata : list (gmap string val);
}.

(** Modelled from the spec: the estimator context object ("a callable
    estimator context object accepting circuit/observable/parameter index
    lists and returning a result object with value and per-result metadata
    (including variance and shot count)"). *)
Record session : Type := Session {
  session_circuits : list QuantumCircuit;
  session_observables : list Observable;
  session_shots : Z;
}.

(** Modelled from the spec: an index is looked up in the session ("index
    lists"); an object stands for itself. *)
Definition resolve {A} (pool : list A) (r : ref A) : res A :=
  match r with
  | Index i =>
      match pool !! i with
      | Some a => OK a
      | None => Raise (ValueError "index out of range")
      end
  | Object a => OK a
  end.

Definition resolved {A} (pool : list A) (r : ref A) : bool :=
  is_ok (resolve pool r).

Fixpoint zip3 {A B C} (l1 : list A) (l2 : list B) (l3 : list C) : list (A * B * C) :=
  match l1, l2, l3 with
  | a :: l1, b :: l2, c :: l3 => (a, b, c) :: zip3 l1 l2 l3
  | _, _, _ => []
  end.

Section estimator.
(** Modelled from the spec: the remote evaluation of one (circuit,
    observable, parameter values) triple: the expectation value and its
    variance. *)
Variable estimate : QuantumCircuit → Observable → list Q → Q * Q.

(** Modelled from the spec: the metadata of one result ("per-result
    metadata (including variance and shot count)"). *)
Definition metadata_entry (variance : Q) (shots : Z) : gmap string val :=
  <["variance" := VFloat variance]> (<["shots" := VInt shots]> ∅).

(** Modelled from the spec: the call [estimator(circuits, observables,
    parameter_values)]: one evaluation per triple, in the order given. *)
Definition estimator (e : session)
    (circuits : list (ref QuantumCircuit))
    (observables : list (ref Observable))
    (parameter_values : list (list Q)) : res EstimatorResult :=
  if negb ((length circuits =? length observables)%nat
           && (length circuits =? length parameter_values)%nat) then
    Raise (ValueError "length mismatch")
  else
    cs ← mapM (resolve (session_circuits e)) circuits;
    os ← mapM (resolve (session_observables e)) observables;
    let results := (λ '(c, o, p), estimate c o p) <$> zip3 cs os parameter_values in
    mret (MkEstimatorResult
            (results.*1)
            ((λ r : Q * Q, metadata_entry r.2 (session_shots e)) <$> results)).

End estimator.

(** The session of the tutorial: two circuits, three observables. *)
Definition psi1 : QuantumCircuit := Circuit "RealAmplitudes(2, reps=2)".
Definition psi2 : QuantumCircuit := Circuit "RealAmplitudes(2, reps=3)".
Definition H1 : Observable := SparsePauliOp [("II", 1%Z); ("IZ", 2%Z); ("XI", 3%Z)].
Definition H2 : Observable := SparsePauliOp [("IZ", 1%Z)].
Definition H3 : Observable := SparsePauliOp [("ZI", 1%Z); ("ZZ", 1%Z)].
Definition theta1 : list Q := inject_Z <$> [0; 1; 1; 2; 3; 5]%Z.
Definition theta2 : list Q := inject_Z <$> [0; 1; 1; 2; 3; 5; 8; 13]%Z.
Definition theta3 : list Q := inject_Z <$> [1; 2; 3; 4; 5; 6]%Z.

Definition tutorial_session : session := Session [psi1; psi2] [H1; H2; H3] 1024.

(** A stand-in for the remote evaluation, for running the examples: the sum
    of the observable's coefficients, with variance zero. *)
Definition coefficient_sum (c : QuantumCircuit) (o : Observable) (p : list Q) : Q * Q :=
  (inject_Z (foldr Z.add 0%Z ((paulis o).*2)), 0%Q).

End Estimator.

(** * The program metadata of the tutorial *)

Module Metadata.

(** [d[k1][k2] = v] on nested dictionaries: the inner dictionary is the
    object stored in [d], so the assignment is visible through [d]. *)
Definition setitem2 (d : gmap string val) (k1 k2 : string) (v : val)
    : res (gmap string val) :=
  match d !! k1 with
  | None => Raise (KeyError k1)
  | Some (VDict inner) => OK (<[k1 := VDict (<[k2 := v]> inner)]> d)
  | Some _ => Raise (TypeError "object does not support item assignment")
  end.

Definition dict (items : list (string * val)) : val := VDict (list_to_map items).

Definition schema : string := "https://json-schema.org/draft/2019-09/schema".

Definition initial_meta : gmap string val :=
  list_to_map
    [("name", VStr "sample-expval");
     ("description", VStr "A sample expectation value program.");
     ("max_execution_time", VInt 1000);
     ("spec", dict [])].

Definition parameters : val :=
  dict
    [("$schema", VStr schema);
     ("properties",
      dict
        [("circuits",
          dict [("description", VStr "A single or list of QuantumCircuits.");
                ("type", VList [VStr "array"; VStr "object"])]);
         ("expectation_operators",
          dict [("description", VStr "One or more expectation values to evaluate.");
                ("type", VList [VStr "string"; VStr "object"; VStr "array"])]);
         ("shots",
          dict [("description", VStr "Number of shots per circuit.");
                ("type", VStr "integer")]);
         ("transpiler_config",
          dict [("description", VStr "A collection of kwargs passed to transpile.");
                ("type", VStr "object")]);
         ("run_config",
          dict [("description",
                 VStr "A collection of kwargs passed to backend.run. Default is False.");
                ("type", VStr "object");
                ("default", VBool false)]);
         ("return_stddev",
          dict [("description",
                 VStr "Return upper-bound on standard deviation. Default is False.");
                ("type", VStr "boolean");
                ("default", VBool false)]);
         ("use_measurement_mitigation",
          dict [("description",
                 VStr "Use measurement mitigation to improve results. Default is False.");
                ("type", VStr "boolean");
                ("default", VBool false)])]);
     ("required", VList [VStr "circuits"])].

Definition return_values : val :=
  dict
    [("$schema", VStr schema);
     ("description",
      VStr "A list of expectation values and optionally standard deviations.");
     ("type", VStr "array")].

(** The cell that builds [meta]: a dictionary literal followed by two
    nested assignments. *)
Definition meta : res (gmap string val) :=
  m ← setitem2 initial_meta "spec" "parameters" parameters;
  setitem2 m "spec" "return_values" return_values.

End Metadata.

(** * [expectation_value_runner]: the wrapper around the runtime program *)

Module Runner.
Import Service.

(** [backend (Backend or str)]: a name, or a backend object whose [name]
    attribute is a string.  Backend objects whose [name] is a method are not
    values of this type. *)
Inductive backend_arg : Type :=
| BackendStr (s : string)
| BackendObj (b : Backend).

Definition mismatch_message : string :=
  "Number of circuits must match number of expectation                                   values if more than one of each".

(** The validation block.  It yields the value of the local variable
    [expectation_operators] after the block, or the raised exception. *)
Definition validate (circuits : arg QuantumCircuit)
    (expectation_operators : arg operator) : res (arg operator) :=
  match circuits with
  | PyList cs =>
      if negb (length cs =? 1)%nat then
        match expectation_operators with
        | PyList ops =>
            if negb (length cs =? 1)%nat && (length ops =? 1)%nat then
              OK (PyList (list_mul ops (length cs)))
            else if negb (length cs =? length ops)%nat then
              Raise (ValueError mismatch_message)
            else OK expectation_operators
        | Bare _ => OK expectation_operators
        end
      else OK expectation_operators
  | Bare _ => OK expectation_operators
  end.

(** The [inputs] dictionary, filled key by key. *)
Definition make_inputs (circuits : arg QuantumCircuit)
    (expectation_operators : arg operator) (shots : Z)
    (transpiler_config run_config : gmap string val)
    (skip_transpilation return_stddev use_measurement_mitigation : bool)
    : gmap string input :=
  let inputs : gmap string input := ∅ in
  let inputs := <["circuits" := ICircuits circuits]> inputs in
  let inputs := <["expectation_operators" := IOperators expectation_operators]> inputs in
  let inputs := <["shots" := IInt shots]> inputs in
  let inputs := <["transpiler_config" := IKwargs transpiler_config]> inputs in
  let inputs := <["run_config" := IKwargs run_config]> inputs in
  let inputs := <["return_stddev" := IBool return_stddev]> inputs in
  let inputs := <["skip_transpilation" := IBool skip_transpilation]> inputs in
  let inputs := <["use_measurement_mitigation" := IBool use_measurement_mitigation]> inputs in
  inputs.

Section runner.

(** The notebook's global [program_id]; the global [service] is the state
    threaded through the call. *)
Variable program_id : string.

Definition expectation_value_runner
    (backend : backend_arg)
    (circuits : arg QuantumCircuit)
    (expectation_operators : arg operator)
    (shots : Z)
    (transpiler_config run_config : gmap string val)
    (skip_transpilation return_stddev use_measurement_mitigation : bool)
    (service : service) : res nat * Service.service :=
  let backend :=
    match backend with
    | BackendStr s => s
    | BackendObj b => name b
    end in
  let options : gmap string string := {["backend_name" := backend]} in
  match validate circuits expectation_operators with
  | Raise e => (Raise e, service)
  | OK expectation_operators =>
      let inputs :=
        make_inputs circuits expectation_operators shots transpiler_config
          run_config skip_transpilation return_stddev
          use_measurement_mitigation in
      run program_id options inputs service
  end.

End runner.

End Runner.

(** * [main]: the expectation-value runtime program *)

Module Main.

(** The libraries [main] calls: the Qiskit transpiler, the backend, and
    mthree.  Their code is not part of the notebooks, so each call is an
    operation of this interface; every call may raise.

    - [Counts] is whatever [result.get_counts()] returns;
    - [Quasi] is whatever [mit.apply_correction] returns, or a
      [QuasiCollection];
    - [execute backend circuits shots run_config] stands for
      [backend.run(circuits, shots=shots, **run_config).result().get_counts()];
    - [cals_from_system] calibrates the mitigator object in place and is
      modelled as returning the calibrated mitigator;
    - an [arg Counts] passed to [expval] is the object itself ([Bare]) or a
      Python list of such objects ([PyList]). *)
Class Libraries : Type := {
  MeasMaps : Type;
  Mitigator : Type;
  Counts : Type;
  Quasi : Type;
  transpile : arg QuantumCircuit → Backend → gmap string val → res (arg QuantumCircuit);
  final_measurement_mapping : list QuantumCircuit → res MeasMaps;
  M3Mitigation : Backend → res Mitigator;
  cals_from_system : Mitigator → MeasMaps → res Mitigator;
  execute : Backend → list QuantumCircuit → Z → gmap string val → res Counts;
  apply_correction : Mitigator → Counts → MeasMaps → bool → res Quasi;
  QuasiCollection : list Quasi → res Quasi;
  quasi_expval : Quasi → arg operator → res (arg Q);
  quasi_expval_and_stddev : Quasi → arg operator → res (arg (Q * Q));
  expval : arg Counts → arg operator → res (arg Q);
  expval_and_stddev : arg Counts → arg operator → res (arg (Q * Q));
}.

(** The [user_messenger] argument; [main] never uses it. *)
Inductive UserMessenger : Type := Messenger.

Section main.
Context `{Libraries}.

(** The first block: the list of circuits that will be executed. *)
Definition transpiled (backend : Backend) (circuits : arg QuantumCircuit)
    (transpiler_config : gmap string val) (skip_transpilation : bool)
    : res (list QuantumCircuit) :=
  if negb skip_transpilation then
    trans_circuits ← transpile circuits backend transpiler_config;
    mret (as_list trans_circuits)
  else mret (as_list circuits).

(** The [duplicate_results] flag. *)
Definition duplicate_flag (expectation_operators : arg operator)
    (trans_circuits : list QuantumCircuit) : bool :=
  match expectation_operators with
  | PyList ops => negb (length ops =? 0)%nat && (length trans_circuits =? 1)%nat
  | Bare _ => false
  end.

Definition main
    (backend : Backend)
    (user_messenger : UserMessenger)
    (circuits : arg QuantumCircuit)
    (expectation_operators : arg operator)
    (shots : Z)
    (transpiler_config run_config : gmap string val)
    (skip_transpilation return_stddev use_measurement_mitigation : bool)
    : res output :=
  trans_circuits ← transpiled backend circuits transpiler_config skip_transpilation;
  let duplicate_results := duplicate_flag expectation_operators trans_circuits in
  (* [meas_maps] and [mit] exist only when mitigation is requested *)
  calibration ←
    (if use_measurement_mitigation then
       meas_maps ← final_measurement_mapping trans_circuits;
       mit ← M3Mitigation backend;
       mit ← cals_from_system mit meas_maps;
       mret (Some (meas_maps, mit))
     else mret None);
  raw_counts ← execute backend trans_circuits shots run_config;
  match calibration with
  | Some (meas_maps, mit) =>
      quasi_dists ← apply_correction mit raw_counts meas_maps return_stddev;
      quasi_dists ←
        (if duplicate_results then
           QuasiCollection (list_mul [quasi_dists] (operators_len expectation_operators))
         else mret quasi_dists);
      if return_stddev then
        ExpvalsStddev <$> quasi_expval_and_stddev quasi_dists expectation_operators
      else Expvals <$> quasi_expval quasi_dists expectation_operators
  | None =>
      let raw_counts :=
        if duplicate_results then
          PyList (list_mul [raw_counts] (operators_len expectation_operators))
        else Bare raw_counts in
      if return_stddev then
        ExpvalsStddev <$> expval_and_stddev raw_counts expectation_operators
      else Expvals <$> expval raw_counts expectation_operators
  end.

End main.

(** What the theorems assume of the libraries: the transpiler returns as
    many circuits as it was given, and the mthree functions that return an
    array return one entry per item of the list or collection they were
    given. *)
Class LibraryContracts (L : Libraries) : Prop := {
  transpile_count circuits backend config trans :
    transpile circuits backend config = OK trans →
    length (as_list trans) = length (as_list circuits);
  expval_array items ops out :
    expval (PyList items) ops = OK out →
    ∃ vs, out = PyList vs ∧ length vs = length items;
  expval_and_stddev_array items ops out :
    expval_and_stddev (PyList items) ops = OK out →
    ∃ vs, out = PyList vs ∧ length vs = length items;
  quasi_expval_array items collection ops out :
    QuasiCollection items = OK collection →
    quasi_expval collection ops = OK out →
    ∃ vs, out = PyList vs ∧ length vs = length items;
  quasi_expval_and_stddev_array items collection ops out :
    QuasiCollection items = OK collection →
    quasi_expval_and_stddev collection ops = OK out →
    ∃ vs, out = PyList vs ∧ length vs = length items;
}.

End Main.

(** * An executable instance of the libraries

    An ideal, noise-free stand-in for the backend and for mthree, used to run
    [main] on the tutorial's inputs.  Counts are dictionaries from bitstrings
    to numbers of shots; the expectation value of a diagonal operator is the
    formula of the tutorial, the sum over the observed bitstrings of the
    probability times the diagonal element. *)

Module Simulation.
Import Main.

Local Open Scope Q_scope.

(** The diagonal element of a one-qubit operator at a bit. *)
Definition diagonal_element (op bit : Ascii.ascii) : Q :=
  if Ascii.eqb op "I"%char then 1
  else if Ascii.eqb op "Z"%char then (if Ascii.eqb bit "1"%char then -1 else 1)
  else if Ascii.eqb op "0"%char then (if Ascii.eqb bit "0"%char then 1 else 0)
  else if Ascii.eqb op "1"%char then (if Ascii.eqb bit "1"%char then 1 else 0)
  else 0.

Definition diagonal (op : operator) (bitstring : string) : Q :=
  match op with
  | OpStr s =>
      foldr Qmult 1
        (zip_with diagonal_element (String.list_ascii_of_string s)
           (String.list_ascii_of_string bitstring))
  | OpDict d => inject_Z (default 0%Z (d !! bitstring))
  end.

Definition expectation (counts : gmap string Z) (op : operator) : Q :=
  let items := map_to_list counts in
  let shots := foldr Z.add 0%Z (items.*2) in
  Qred (foldr Qplus 0 ((λ '(b, n), inject_Z n * diagonal op b) <$> items)
        / inject_Z shots).

(** The ideal outcome of the circuits of the tutorial: a GHZ state on the
    number of qubits given by the circuit's name, all zeros otherwise. *)
Definition simulate (shots : Z) (c : QuantumCircuit) : gmap string Z :=
  if String.eqb (circuit_name c) "ghz4" then
    <["0000" := (shots / 2)%Z]> (<["1111" := (shots / 2)%Z]> ∅)
  else if String.eqb (circuit_name c) "ghz3" then
    <["000" := (shots / 2)%Z]> (<["111" := (shots / 2)%Z]> ∅)
  else <["0" := shots]> ∅.

(** [get_counts]: one dictionary for one experiment, a list otherwise. *)
Definition get_counts (experiments : list (gmap string Z)) : arg (gmap string Z) :=
  match experiments with
  | [counts] => Bare counts
  | _ => PyList experiments
  end.

(** One value per (item, operator) pair; a single operator is used for
    every item. *)
Definition per_item {V} (value : gmap string Z → operator → V)
    (items : list (gmap string Z)) (ops : arg operator) : res (list V) :=
  match ops with
  | PyList ops =>
      if (length ops =? length items)%nat then OK (zip_with value items ops)
      else Raise (ExternalError "M3Error")
  | Bare op => OK ((λ item, value item op) <$> items)
  end.

Definition single (item : arg (gmap string Z)) : res (gmap string Z) :=
  match item with
  | Bare counts => OK counts
  | PyList _ => Raise (TypeError "not a distribution")
  end.

Definition collection_expval {V} (value : gmap string Z → operator → V)
    (data : arg (gmap string Z)) (ops : arg operator) : res (arg V) :=
  match data with
  | Bare counts =>
      match ops with
      | Bare op => OK (Bare (value counts op))
      | PyList _ => Raise (ExternalError "M3Error")
      end
  | PyList items => PyList <$> per_item value items ops
  end.

Definition items_expval {V} (value : gmap string Z → operator → V)
    (items : arg (arg (gmap string Z))) (ops : arg operator) : res (arg V) :=
  match items with
  | Bare data => collection_expval value data ops
  | PyList l =>
      items ← mapM single l;
      PyList <$> per_item value items ops
  end.

Definition with_stddev (counts : gmap string Z) (op : operator) : Q * Q :=
  (expectation counts op, 0).

Global Instance ideal : Libraries := {|
  MeasMaps := nat;
  Mitigator := bool;
  Counts := arg (gmap string Z);
  Quasi := arg (gmap string Z);
  transpile circuits _ _ := OK circuits;
  final_measurement_mapping trans_circuits := OK (length trans_circuits);
  M3Mitigation _ := OK false;
  cals_from_system _ _ := OK true;
  execute _ circuits shots _ := OK (get_counts (simulate shots <$> circuits));
  apply_correction mit raw_counts _ _ :=
    if mit then OK raw_counts else Raise (ExternalError "M3Error");
  QuasiCollection items := PyList <$> mapM single items;
  quasi_expval := collection_expval expectation;
  quasi_expval_and_stddev := collection_expval with_stddev;
  expval := items_expval expectation;
  expval_and_stddev := items_expval with_stddev;
|}.

Definition ghz4 : QuantumCircuit := Circuit "ghz4".
Definition fake_santiago : Backend := MkBackend "fake_santiago".

(** How the runtime calls the uploaded program:
    [main(backend, user_messenger, **inputs)], with the defaults of [main]'s
    signature for the keys that [inputs] lacks. *)
Definition get_bool (inputs : gmap string input) (key : string) : bool :=
  match inputs !! key with Some (IBool b) => b | _ => false end.

Definition get_kwargs (inputs : gmap string input) (key : string) : gmap string val :=
  match inputs !! key with Some (IKwargs k) => k | _ => ∅ end.

Definition sample_expval (options : gmap string string)
    (inputs : gmap string input) : res output :=
  match inputs !! "circuits" with
  | Some (ICircuits circuits) =>
      main (MkBackend (default "" (options !! "backend_name"))) Messenger circuits
        (match inputs !! "expectation_operators" with
         | Some (IOperators ops) => ops
         | _ => Bare (OpStr "")
         end)
        (match inputs !! "shots" with Some (IInt n) => n | _ => 8192%Z end)
        (get_kwargs inputs "transpiler_config")
        (get_kwargs inputs "run_config")
        (get_bool inputs "skip_transpilation")
        (get_bool inputs "return_stddev")
        (get_bool inputs "use_measurement_mitigation")
  | _ => Raise (TypeError "missing required argument: circuits")
  end.

(** A service on which the tutorial's program has been uploaded. *)
Definition tutorial_program : Service.program :=
  Service.Program sample_expval ∅.

Definition tutorial_service : Service.service :=
  Service.QiskitRuntimeService "ibm-q/open/main"
    [(MkBackend "ibmq_qasm_simulator", ["ibm-q/open/main"]);
     (MkBackend "ibmq_manila", ["ibm-q/open/main"; "ibm-q/premium/main"]);
     (MkBackend "ibm_washington", ["ibm-q/premium/main"])]
    {["sample-expval-RL2YzPQEe1" := tutorial_program]}
    [].

End Simulation.

(** * The Quantum Volume cells of the tutorial *)

Module QuantumVolume.
Import HeavyProjector.

(** The layout options passed by the tutorial. *)
Definition sabre_config : gmap string val :=
  list_to_map
    [("optimization_level", VInt 3);
     ("layout_method", VStr "sabre");
     ("routing_method", VStr "sabre")].

Section cells.

(** [Statevector.from_instruction(circ).probabilities_dict()] and
    [circ.measure_all(inplace=False)], two calls into Qiskit. *)
Variable probabilities_dict : QuantumCircuit → gmap string Q.
Variable measure_all : QuantumCircuit → QuantumCircuit.

(** The notebook's global [program_id]. *)
Variable program_id : string.

(** [ideal_probs = [... for circ in qv_circs]] *)
Definition ideal_probs (qv_circs : list QuantumCircuit) : list (gmap string Q) :=
  probabilities_dict <$> qv_circs.

(** [heavy_projectors = [heavy_projector(probs) for probs in ideal_probs]] *)
Definition heavy_projectors (qv_circs : list QuantumCircuit) : list (gmap string Z) :=
  heavy_projector <$> ideal_probs qv_circs.

(** [circs = [circ.measure_all(inplace=False) for circ in qv_circs]] *)
Definition circs (qv_circs : list QuantumCircuit) : list QuantumCircuit :=
  measure_all <$> qv_circs.

(** [job3 = expectation_value_runner(backend, circs, heavy_projectors,
    transpiler_config={...})] with [backend = "ibmq_manila"]; the other
    parameters take their defaults. *)
Definition job3 (qv_circs : list QuantumCircuit) (service : Service.service)
    : res nat * Service.service :=
  Runner.expectation_value_runner program_id (Runner.BackendStr "ibmq_manila")
    (PyList (circs qv_circs)) (PyList (OpDict <$> heavy_projectors qv_circs))
    8192 sabre_config ∅ false false false service.

End cells.


End QuantumVolume.

(** * A backend that is out of reach

    The same libraries as in [Simulation], except that running the circuits
    raises. *)

Module Offline.
Import Main Simulation.

Definition offline : Libraries := {|
  MeasMaps := nat;
  Mitigator := bool;
  Counts := arg (gmap string Z);
  Quasi := arg (gmap string Z);
  transpile circuits _ _ := OK circuits;
  final_measurement_mapping trans_circuits := OK (length trans_circuits);
  M3Mitigation _ := OK false;
  cals_from_system _ _ := OK true;
  execute _ _ _ _ := Raise (ExternalError "backend offline");
  apply_correction mit raw_counts _ _ :=
    if mit then OK raw_counts else Raise (ExternalError "M3Error");
  QuasiCollection items := PyList <$> mapM single items;
  quasi_expval := collection_expval expectation;
  quasi_expval_and_stddev := collection_expval with_stddev;
  expval := items_expval expectation;
  expval_and_stddev := items_expval with_stddev;
|}.

End Offline.

(** * Part II: properties *)

Import HeavyProjector Service Runner Simulation.

(** ** [heavy_projector] *)

Section heavy_projector_facts.
Local Open Scope Q_scope.







Example median_odd : median [1 # 2; 1 # 8; 1 # 4] = Some (1 # 4).
Proof. reflexivity. Qed.

Example median_even : median [1 # 2; 1 # 8; 1 # 4; 1 # 8] = Some (12 # 64).
Proof. reflexivity. Qed.

Example median_nan : median [] = None.
Proof. reflexivity. Qed.

Lemma above_spec val med : above val (Some med) = true ↔ med < val.
Proof.
  unfold above. rewrite negb_true_iff, <- not_true_iff_false, Qle_bool_iff.
  split; [apply Qnot_le_lt | apply Qlt_not_le].
Qed.

(** *** At most half of the values are above the median *)








(** The keys written by the loop are the keys already present plus the keys
    of the items above the median. *)
Lemma loop_dom median_prob items heavy_strs key :
  key ∈ dom (foldl (loop_body median_prob) heavy_strs items) ↔
  key ∈ dom heavy_strs ∨
  ∃ val, (key, val) ∈ items ∧ above val median_prob = true.
Proof.
  revert heavy_strs.
  induction items as [|[k v] items IH]; intros heavy_strs; simpl.
  - split; [by left|]. intros [?|(? & H & _)]; [done|]. by apply elem_of_nil in H.
  - rewrite IH. setoid_rewrite elem_of_cons. destruct (above v median_prob) eqn:Hv.
    + rewrite dom_insert, elem_of_union, elem_of_singleton. split.
      * intros [[->|?]|(val & ? & ?)]; eauto 6.
      * intros [?|(val & [[= -> ->]|?] & ?)]; eauto 6.
    + split.
      * intros [?|(val & ? & ?)]; eauto 6.
      * intros [?|(val & [[= -> ->]|?] & ?)]; [eauto 6|congruence|eauto 6].
Qed.

(** The loop only ever stores the integer [1]. *)
Lemma loop_values median_prob items heavy_strs :
  map_Forall (λ _ z, z = 1%Z) heavy_strs →
  map_Forall (λ _ z, z = 1%Z) (foldl (loop_body median_prob) heavy_strs items).
Proof.
  revert heavy_strs.
  induction items as [|[k v] items IH]; intros heavy_strs Hall; simpl; [done|].
  apply IH. destruct (above v median_prob); [|done].
  by apply map_Forall_insert_2.
Qed.

(** C8.  The result is a projector specification: its keys are keys of the
    input and every stored value is the integer [1]; no probability of the
    input is kept. *)
Theorem heavy_projector_is_projector (qv_probs : gmap string Q) :
  dom (heavy_projector qv_probs) ⊆ dom qv_probs ∧
  map_Forall (λ _ z, z = 1%Z) (heavy_projector qv_probs).
Proof.
  split.
  - intros key. unfold heavy_projector. rewrite loop_dom, dom_empty.
    intros [H|(val & Hin & _)]; [by apply not_elem_of_empty in H|].
    apply elem_of_map_to_list in Hin. by apply elem_of_dom_2 in Hin.
  - apply loop_values, map_Forall_empty.
Qed.

Example heavy_projector_sample :
  map_to_list (heavy_projector sample_probs) = [("01"%string, 1%Z); ("00"%string, 1%Z)].
Proof. vm_compute. reflexivity. Qed.

Example heavy_projector_empty : heavy_projector ∅ = ∅.
Proof. reflexivity. Qed.

End heavy_projector_facts.

(** ** [expectation_value_runner] *)

Section runner_facts.

Lemma list_mul_singleton {A} (x : A) n : list_mul [x] n = replicate n x.
Proof. unfold list_mul. induction n as [|n IH]; simpl; [done|]. by rewrite IH. Qed.

Lemma list_mul_length {A} (l : list A) n : length (list_mul l n) = (n * length l)%nat.
Proof.
  unfold list_mul. induction n as [|n IH]; simpl; [done|].
  by rewrite length_app, IH.
Qed.

(** When the validation block raises, and what it yields otherwise. *)
Lemma validate_raises circuits expectation_operators e :
  validate circuits expectation_operators = Raise e ↔
  e = ValueError mismatch_message ∧
  ∃ cs ops, circuits = PyList cs ∧ expectation_operators = PyList ops ∧
            length cs ≠ 1%nat ∧ length ops ≠ 1%nat ∧ length cs ≠ length ops.
Proof.
  unfold validate. split.
  - destruct circuits as [c|cs]; [done|].
    destruct (length cs =? 1)%nat eqn:Hcs; simpl; [done|].
    destruct expectation_operators as [o|ops]; [done|].
    destruct (length ops =? 1)%nat eqn:Hops; simpl; [done|].
    destruct (length cs =? length ops)%nat eqn:Hlen; simpl; [done|].
    intros [= <-]. split; [done|]. exists cs, ops.
    apply Nat.eqb_neq in Hcs, Hops, Hlen. done.
  - intros (-> & cs & ops & -> & -> & Hcs & Hops & Hlen).
    apply Nat.eqb_neq in Hcs, Hops, Hlen. by rewrite Hcs, Hops, Hlen.
Qed.

(** C2, as stated, fails: two lists of different lengths are accepted and
    submitted when either of them has one element.  First input: one
    circuit in a list, three operators.  Second input: three circuits, one
    operator in a list. *)
Lemma runner_mismatch_counterexample :
  let qc := Circuit "qc" in
  let run_it circuits ops :=
    expectation_value_runner "sample-expval-RL2YzPQEe1"
      (BackendStr "ibmq_qasm_simulator") (PyList circuits) (PyList ops)
      8192 ∅ ∅ false false false tutorial_service in
  let submitted (r : res nat * service) :=
    r.1 = OK 0%nat ∧ length (jobs r.2) = 1%nat in
  (length [qc] ≠ length [OpStr "ZZZZ"; OpStr "IIII"; OpStr "IZZZ"] ∧
   submitted (run_it [qc] [OpStr "ZZZZ"; OpStr "IIII"; OpStr "IZZZ"])) ∧
  (length [qc; qc; qc] ≠ length [OpStr "ZZZZ"] ∧
   submitted (run_it [qc; qc; qc] [OpStr "ZZZZ"])).
Proof. vm_compute. repeat split; discriminate. Qed.

(** C2, amended.  When circuits and operators are both lists, their lengths
    differ and neither list has exactly one element, the runner raises
    [ValueError] and leaves the service as it was: nothing is submitted. *)
Theorem runner_rejects_mismatch program_id backend cs ops shots
    transpiler_config run_config skip_transpilation return_stddev
    use_measurement_mitigation (s : service) :
  length cs ≠ length ops →
  length cs ≠ 1%nat →
  length ops ≠ 1%nat →
  expectation_value_runner program_id backend (PyList cs) (PyList ops) shots
    transpiler_config run_config skip_transpilation return_stddev
    use_measurement_mitigation s
  = (Raise (ValueError mismatch_message), s).
Proof.
  intros Hlen Hcs Hops. unfold expectation_value_runner.
  assert (validate (PyList cs) (PyList ops) = Raise (ValueError mismatch_message))
    as -> by (apply validate_raises; eauto 10).
  done.
Qed.

Lemma runner_rejects_mismatch_witness :
  let qc := Circuit "qc" in
  let r :=
    expectation_value_runner "sample-expval-RL2YzPQEe1"
      (BackendStr "ibmq_qasm_simulator") (PyList [qc; qc; qc])
      (PyList [OpStr "ZZZZ"; OpStr "IIII"]) 8192 ∅ ∅ false false false
      tutorial_service in
  r = (Raise (ValueError mismatch_message), tutorial_service).
Proof.
  intros qc. apply runner_rejects_mismatch; simpl; lia.
Defined.

(** The runner raises only for the mismatch of C2 (amended): every other
    call reaches [service.run]. *)
Lemma runner_raises_only_on_mismatch program_id backend circuits
    expectation_operators shots transpiler_config run_config
    skip_transpilation return_stddev use_measurement_mitigation
    (s : service) msg s' :
  expectation_value_runner program_id backend circuits expectation_operators
    shots transpiler_config run_config skip_transpilation return_stddev
    use_measurement_mitigation s = (Raise (ValueError msg), s') →
  s' = s ∧
  ∃ cs ops, circuits = PyList cs ∧ expectation_operators = PyList ops ∧
            length cs ≠ 1%nat ∧ length ops ≠ 1%nat ∧ length cs ≠ length ops.
Proof.
  unfold expectation_value_runner.
  destruct (validate circuits expectation_operators) as [ops'|e] eqn:Hv.
  - unfold run. destruct (programs s !! program_id); intros [= ]; done.
  - intros [= -> <-]. apply validate_raises in Hv as [_ Hv]. done.
Qed.

(** C9.  With a list of at least two circuits and a one-element list of
    operators the runner does not raise: it calls [service.run] with the
    operator repeated once per circuit, next to the circuits as given; on a
    service that knows the program the request is appended to the jobs. *)
Theorem runner_broadcasts_single_operator program_id backend cs op shots
    transpiler_config run_config skip_transpilation return_stddev
    use_measurement_mitigation (s : service) :
  (2 ≤ length cs)%nat →
  ∃ options inputs,
    expectation_value_runner program_id backend (PyList cs) (PyList [op]) shots
      transpiler_config run_config skip_transpilation return_stddev
      use_measurement_mitigation s
    = run program_id options inputs s ∧
    inputs !! "circuits" = Some (ICircuits (PyList cs)) ∧
    inputs !! "expectation_operators"
      = Some (IOperators (PyList (replicate (length cs) op))) ∧
    (is_Some (programs s !! program_id) →
     run program_id options inputs s
     = (OK (length (jobs s)),
        set_jobs (λ js, js ++ [Job (RunRequest program_id options inputs) Pending]) s)).
Proof.
  intros Hn. unfold expectation_value_runner, validate.
  assert ((length cs =? 1)%nat = false) as -> by (apply Nat.eqb_neq; lia).
  simpl. rewrite list_mul_singleton.
  eexists _, _. split; [reflexivity|]. split; [|split].
  - unfold make_inputs. by simplify_map_eq.
  - unfold make_inputs. by simplify_map_eq.
  - intros [p Hp]. unfold run. by rewrite Hp.
Qed.

Lemma runner_broadcasts_single_operator_witness :
  let qc := Circuit "qc" in
  (2 ≤ length [qc; qc; qc])%nat ∧
  ∃ options inputs,
    expectation_value_runner "sample-expval-RL2YzPQEe1"
      (BackendStr "ibmq_qasm_simulator") (PyList [qc; qc; qc])
      (PyList [OpStr "ZZZZ"]) 8192 ∅ ∅ false false false tutorial_service
    = run "sample-expval-RL2YzPQEe1" options inputs tutorial_service ∧
    inputs !! "circuits" = Some (ICircuits (PyList [qc; qc; qc])) ∧
    inputs !! "expectation_operators"
      = Some (IOperators (PyList (replicate (length [qc; qc; qc]) (OpStr "ZZZZ")))) ∧
    (is_Some (programs tutorial_service !! "sample-expval-RL2YzPQEe1") →
     run "sample-expval-RL2YzPQEe1" options inputs tutorial_service
     = (OK (length (jobs tutorial_service)),
        set_jobs (λ js, js ++ [Job (RunRequest "sample-expval-RL2YzPQEe1" options inputs) Pending])
          tutorial_service)).
Proof.
  intros qc. split; [simpl; lia|].
  apply runner_broadcasts_single_operator. simpl; lia.
Defined.

End runner_facts.

(** ** [main] *)

Section main_facts.
Import Main.
Context `{L : Libraries}.

Lemma bind_ok {A B} (c : res A) (k : A → res B) b :
  c ≫= k = OK b ↔ ∃ a, c = OK a ∧ k a = OK b.
Proof.
  destruct c as [a|e]; simpl.
  - split; [eauto|]. by intros (? & [= <-] & ?).
  - split; [done|]. by intros (? & ? & ?).
Qed.

Lemma fmap_ok {A B} (f : A → B) (c : res A) b :
  f <$> c = OK b ↔ ∃ a, c = OK a ∧ b = f a.
Proof.
  destruct c as [a|e]; simpl.
  - split; [intros [= <-]; eauto|]. by intros (? & [= <-] & ->).
  - split; [done|]. by intros (? & ? & ?).
Qed.

(** What [main] returns, call by call, for each value of
    [use_measurement_mitigation]. *)
Lemma main_returns backend user_messenger circuits
    expectation_operators shots transpiler_config run_config
    skip_transpilation return_stddev out :
  (main backend user_messenger circuits expectation_operators shots
     transpiler_config run_config skip_transpilation return_stddev true
   = OK out ↔
   ∃ trans_circuits meas_maps mit calibrated raw_counts corrected quasi_dists,
     transpiled backend circuits transpiler_config skip_transpilation
       = OK trans_circuits ∧
     final_measurement_mapping trans_circuits = OK meas_maps ∧
     M3Mitigation backend = OK mit ∧
     cals_from_system mit meas_maps = OK calibrated ∧
     execute backend trans_circuits shots run_config = OK raw_counts ∧
     apply_correction calibrated raw_counts meas_maps return_stddev = OK corrected ∧
     (if duplicate_flag expectation_operators trans_circuits
      then QuasiCollection
             (replicate (operators_len expectation_operators) corrected)
           = OK quasi_dists
      else quasi_dists = corrected) ∧
     (if return_stddev
      then ∃ pairs,
             quasi_expval_and_stddev quasi_dists expectation_operators = OK pairs ∧
             out = ExpvalsStddev pairs
      else ∃ vals,
             quasi_expval quasi_dists expectation_operators = OK vals ∧
             out = Expvals vals)) ∧
  (main backend user_messenger circuits expectation_operators shots
     transpiler_config run_config skip_transpilation return_stddev false
   = OK out ↔
   ∃ trans_circuits raw_counts items,
     transpiled backend circuits transpiler_config skip_transpilation
       = OK trans_circuits ∧
     execute backend trans_circuits shots run_config = OK raw_counts ∧
     items = (if duplicate_flag expectation_operators trans_circuits
              then PyList (replicate (operators_len expectation_operators) raw_counts)
              else Bare raw_counts) ∧
     (if return_stddev
      then ∃ pairs,
             expval_and_stddev items expectation_operators = OK pairs ∧
             out = ExpvalsStddev pairs
      else ∃ vals,
             expval items expectation_operators = OK vals ∧
             out = Expvals vals)).
Proof.
  unfold main. split.
  - split.
    + intros Hmain.
      apply bind_ok in Hmain as (trans & Ht & Hmain).
      apply bind_ok in Hmain as (cal & Hcal & Hmain).
      apply bind_ok in Hcal as (mm & Hmm & Hcal).
      apply bind_ok in Hcal as (mit & Hmit & Hcal).
      apply bind_ok in Hcal as (cali & Hcali & [= <-]).
      apply bind_ok in Hmain as (raw & Hraw & Hmain).
      apply bind_ok in Hmain as (q & Hq & Hmain).
      apply bind_ok in Hmain as (q' & Hq' & Hmain).
      exists trans, mm, mit, cali, raw, q, q'. repeat (split; [done|]).
      rewrite list_mul_singleton in Hq'. split.
      * destruct (duplicate_flag _ _); [done|]. by injection Hq' as <-.
      * destruct return_stddev; apply fmap_ok in Hmain as (? & ? & ->); eauto.
    + intros (trans & mm & mit & cali & raw & q & q' & Ht & Hmm & Hmit & Hcal
               & Hraw & Hq & Hq' & Hout).
      rewrite Ht. simpl. rewrite Hmm. simpl. rewrite Hmit. simpl.
      rewrite Hcal. simpl. rewrite Hraw. simpl. rewrite Hq. simpl.
      rewrite list_mul_singleton.
      destruct (duplicate_flag _ _).
      * rewrite Hq'. simpl.
        destruct return_stddev; destruct Hout as (? & -> & ->); done.
      * subst q'. simpl.
        destruct return_stddev; destruct Hout as (? & -> & ->); done.
  - split.
    + intros Hmain.
      apply bind_ok in Hmain as (trans & Ht & Hmain).
      apply bind_ok in Hmain as (cal & [= <-] & Hmain).
      apply bind_ok in Hmain as (raw & Hraw & Hmain).
      exists trans, raw. eexists. repeat (split; [done|]).
      rewrite list_mul_singleton in Hmain.
      destruct return_stddev; apply fmap_ok in Hmain as (? & ? & ->); eauto.
    + intros (trans & raw & items & Ht & Hraw & -> & Hout).
      rewrite Ht. simpl. rewrite Hraw. simpl.
      rewrite list_mul_singleton.
      destruct return_stddev; destruct Hout as (? & -> & ->); done.
Qed.


(** C3.  With [use_measurement_mitigation = True] the value [main] returns
    is computed by the mthree expectation-value methods from the
    quasi-probabilities obtained by applying to the raw counts the
    correction of a mitigator calibrated over the final measurement mapping
    of the transpiled circuits; with [False] it is computed from the raw
    counts directly.  In both branches [return_stddev = True] yields
    (expectation value, standard deviation) pairs and [False] plain
    expectation values. *)
Theorem main_mitigation_dataflow backend user_messenger circuits
    expectation_operators shots transpiler_config run_config
    skip_transpilation return_stddev out :
  (main backend user_messenger circuits expectation_operators shots
     transpiler_config run_config skip_transpilation return_stddev true
   = OK out ↔
   ∃ trans_circuits meas_maps mit calibrated raw_counts corrected quasi_dists,
     transpiled backend circuits transpiler_config skip_transpilation
       = OK trans_circuits ∧
     final_measurement_mapping trans_circuits = OK meas_maps ∧
     M3Mitigation backend = OK mit ∧
     cals_from_system mit meas_maps = OK calibrated ∧
     execute backend trans_circuits shots run_config = OK raw_counts ∧
     apply_correction calibrated raw_counts meas_maps return_stddev = OK corrected ∧
     (if duplicate_flag expectation_operators trans_circuits
      then QuasiCollection
             (replicate (operators_len expectation_operators) corrected)
           = OK quasi_dists
      else quasi_dists = corrected) ∧
     (if return_stddev
      then ∃ pairs,
             quasi_expval_and_stddev quasi_dists expectation_operators = OK pairs ∧
             out = ExpvalsStddev pairs
      else ∃ vals,
             quasi_expval quasi_dists expectation_operators = OK vals ∧
             out = Expvals vals)) ∧
  (main backend user_messenger circuits expectation_operators shots
     transpiler_config run_config skip_transpilation return_stddev false
   = OK out ↔
   ∃ trans_circuits raw_counts items,
     transpiled backend circuits transpiler_config skip_transpilation
       = OK trans_circuits ∧
     execute backend trans_circuits shots run_config = OK raw_counts ∧
     items = (if duplicate_flag expectation_operators trans_circuits
              then PyList (replicate (operators_len expectation_operators) raw_counts)
              else Bare raw_counts) ∧
     (if return_stddev
      then ∃ pairs,
             expval_and_stddev items expectation_operators = OK pairs ∧
             out = ExpvalsStddev pairs
      else ∃ vals,
             expval items expectation_operators = OK vals ∧
             out = Expvals vals)).
Proof.
  apply main_returns.
Qed.

(** The single circuit that is executed when one circuit was given. *)
Lemma transpiled_single {C : LibraryContracts L} backend circuits
    transpiler_config skip_transpilation trans_circuits :
  length (as_list circuits) = 1%nat →
  transpiled backend circuits transpiler_config skip_transpilation
    = OK trans_circuits →
  ∃ qc, trans_circuits = [qc].
Proof.
  intros Hone. unfold transpiled.
  destruct skip_transpilation; simpl.
  - intros [= <-]. destruct (as_list circuits) as [|qc [|]]; simplify_eq/=. eauto.
  - intros (t & Ht & [= <-])%bind_ok. apply transpile_count in Ht.
    rewrite Hone in Ht. destruct (as_list t) as [|qc [|]]; simplify_eq/=. eauto.
Qed.

(** C10.  When one circuit is given (bare or in a one-element list, with or
    without transpilation) together with a non-empty list of [k] operators,
    [main] returns exactly when one circuit is executed and the library,
    given [k] copies of the data of that circuit (its raw counts, or the
    quasi-probabilities obtained from them under mitigation), returns; the
    result is then an array with one entry per operator. *)
Theorem main_single_circuit_duplicates {C : LibraryContracts L} backend
    user_messenger circuits ops shots transpiler_config run_config
    skip_transpilation return_stddev use_measurement_mitigation out :
  length (as_list circuits) = 1%nat →
  ops ≠ [] →
  main backend user_messenger circuits (PyList ops) shots transpiler_config
    run_config skip_transpilation return_stddev use_measurement_mitigation
  = OK out ↔
  ∃ qc raw_counts,
    transpiled backend circuits transpiler_config skip_transpilation = OK [qc] ∧
    execute backend [qc] shots run_config = OK raw_counts ∧
    if use_measurement_mitigation then
      ∃ meas_maps mit calibrated corrected collection,
        final_measurement_mapping [qc] = OK meas_maps ∧
        M3Mitigation backend = OK mit ∧
        cals_from_system mit meas_maps = OK calibrated ∧
        apply_correction calibrated raw_counts meas_maps return_stddev
          = OK corrected ∧
        QuasiCollection (replicate (length ops) corrected) = OK collection ∧
        if return_stddev then
          ∃ pairs,
            quasi_expval_and_stddev collection (PyList ops) = OK (PyList pairs) ∧
            length pairs = length ops ∧ out = ExpvalsStddev (PyList pairs)
        else
          ∃ vals,
            quasi_expval collection (PyList ops) = OK (PyList vals) ∧
            length vals = length ops ∧ out = Expvals (PyList vals)
    else
      if return_stddev then
        ∃ pairs,
          expval_and_stddev (PyList (replicate (length ops) raw_counts)) (PyList ops)
            = OK (PyList pairs) ∧
          length pairs = length ops ∧ out = ExpvalsStddev (PyList pairs)
      else
        ∃ vals,
          expval (PyList (replicate (length ops) raw_counts)) (PyList ops)
            = OK (PyList vals) ∧
          length vals = length ops ∧ out = Expvals (PyList vals).
Proof.
  intros Hone Hops.
  assert (∀ qc, duplicate_flag (PyList ops) [qc] = true) as Hdup.
  { intros qc. unfold duplicate_flag. destruct ops; done. }
  destruct use_measurement_mitigation.
  - rewrite (proj1 (main_returns _ _ _ _ _ _ _ _ _ _)). split.
    + intros (trans & mm & mit & cali & raw & q & q' & Ht & Hmm & Hmit & Hcal
               & Hraw & Hq & Hq' & Hout).
      destruct (transpiled_single _ _ _ _ _ Hone Ht) as [qc ->].
      rewrite Hdup in Hq'. simpl in Hq'.
      exists qc, raw. repeat (split; [done|]).
      exists mm, mit, cali, q, q'. repeat (split; [done|]).
      destruct return_stddev; destruct Hout as (r & Hr & ->).
      * destruct (quasi_expval_and_stddev_array _ _ _ _ Hq' Hr) as (vs & -> & Hlen).
        rewrite length_replicate in Hlen. eauto.
      * destruct (quasi_expval_array _ _ _ _ Hq' Hr) as (vs & -> & Hlen).
        rewrite length_replicate in Hlen. eauto.
    + intros (qc & raw & Ht & Hraw & mm & mit & cali & q & q' & Hmm & Hmit
               & Hcal & Hq & Hq' & Hout).
      exists [qc], mm, mit, cali, raw, q, q'. repeat (split; [done|]).
      rewrite Hdup. simpl. split; [done|].
      destruct return_stddev; destruct Hout as (r & Hr & _ & ->); eauto.
  - rewrite (proj2 (main_returns _ _ _ _ _ _ _ _ _ _)). split.
    + intros (trans & raw & items & Ht & Hraw & -> & Hout).
      destruct (transpiled_single _ _ _ _ _ Hone Ht) as [qc ->].
      rewrite Hdup in Hout. simpl in Hout.
      exists qc, raw. repeat (split; [done|]).
      destruct return_stddev; destruct Hout as (r & Hr & ->).
      * destruct (expval_and_stddev_array _ _ _ Hr) as (vs & -> & Hlen).
        rewrite length_replicate in Hlen. eauto.
      * destruct (expval_array _ _ _ Hr) as (vs & -> & Hlen).
        rewrite length_replicate in Hlen. eauto.
    + intros (qc & raw & Ht & Hraw & Hout).
      exists [qc], raw. eexists. repeat (split; [done|]).
      rewrite Hdup. simpl.
      destruct return_stddev; destruct Hout as (r & Hr & _ & ->); eauto.
Qed.

End main_facts.

(** ** The executable instance satisfies the contracts *)

Section simulation_facts.
Import Main Simulation.

Lemma mapM_ok_length {A B} (f : A → res B) l l' :
  mapM f l = OK l' → length l' = length l.
Proof.
  revert l'. induction l as [|x l IH]; intros l'; simpl.
  - by intros [= <-].
  - intros (y & _ & (k & Hk & [= <-])%bind_ok)%bind_ok.
    simpl. by rewrite (IH k).
Qed.

Lemma per_item_length {V} (value : gmap string Z → operator → V) items ops vs :
  per_item value items ops = OK vs → length vs = length items.
Proof.
  unfold per_item. destruct ops as [op|ops].
  - intros [= <-]. by rewrite length_fmap.
  - destruct (length ops =? length items)%nat eqn:Hlen; [|done].
    intros [= <-]. apply Nat.eqb_eq in Hlen.
    rewrite length_zip_with. lia.
Qed.

Lemma items_expval_array {V} (value : gmap string Z → operator → V) items ops out :
  items_expval value (PyList items) ops = OK out →
  ∃ vs, out = PyList vs ∧ length vs = length items.
Proof.
  unfold items_expval.
  intros (singles & Hs & (vs & Hvs & ->)%fmap_ok)%bind_ok.
  exists vs. split; [done|].
  apply per_item_length in Hvs. apply mapM_ok_length in Hs. congruence.
Qed.

Lemma collection_expval_array {V} (value : gmap string Z → operator → V)
    items collection ops out :
  QuasiCollection items = OK collection →
  collection_expval value collection ops = OK out →
  ∃ vs, out = PyList vs ∧ length vs = length items.
Proof.
  simpl. intros (singles & Hs & ->)%fmap_ok. simpl.
  intros (vs & Hvs & ->)%fmap_ok.
  exists vs. split; [done|].
  apply per_item_length in Hvs. apply mapM_ok_length in Hs. congruence.
Qed.

Lemma ideal_contracts : LibraryContracts ideal.
Proof.
  split.
  - simpl. by intros circuits _ _ trans [= <-].
  - apply @items_expval_array.
  - apply @items_expval_array.
  - apply @collection_expval_array.
  - apply @collection_expval_array.
Qed.

(** The local test of the tutorial: a 4-qubit GHZ circuit and the operators
    [ZZZZ], [IIII] and [IZZZ], with measurement mitigation.  On the ideal
    backend the three values are 1, 1 and 0. *)
Example main_local_test :
  main fake_santiago Messenger (Bare ghz4)
    (PyList [OpStr "ZZZZ"; OpStr "IIII"; OpStr "IZZZ"]) 8192 ∅ ∅
    false false true
  = OK (Expvals (PyList [1; 1; 0]%Q)).
Proof. vm_compute. reflexivity. Qed.

Lemma main_single_circuit_duplicates_witness :
  let ops := [OpStr "ZZZZ"; OpStr "IIII"; OpStr "IZZZ"] in
  let out := Expvals (PyList [1; 1; 0]%Q) in
  length (as_list (Bare ghz4)) = 1%nat ∧ ops ≠ [] ∧
  (main fake_santiago Messenger (Bare ghz4) (PyList ops) 8192 ∅ ∅
     false false true = OK out ↔
   ∃ qc raw_counts,
     transpiled fake_santiago (Bare ghz4) ∅ false = OK [qc] ∧
     execute fake_santiago [qc] 8192 ∅ = OK raw_counts ∧
     ∃ meas_maps mit calibrated corrected collection,
       final_measurement_mapping [qc] = OK meas_maps ∧
       M3Mitigation fake_santiago = OK mit ∧
       cals_from_system mit meas_maps = OK calibrated ∧
       apply_correction calibrated raw_counts meas_maps false = OK corrected ∧
       QuasiCollection (replicate (length ops) corrected) = OK collection ∧
       ∃ vals,
         quasi_expval collection (PyList ops) = OK (PyList vals) ∧
         length vals = length ops ∧ out = Expvals (PyList vals)).
Proof.
  intros ops out. split; [reflexivity|]. split; [discriminate|].
  apply (main_single_circuit_duplicates (L := ideal)
           (C := ideal_contracts));
    [reflexivity|discriminate].
Defined.

End simulation_facts.

(** ** The service handle *)

Section service_facts.

(** C6.  [backends()] returns a list of backend objects: exactly the
    backends of the catalogue that the instance of the authenticated account
    may use. *)
Theorem backends_lists_available (s : service) (b : Backend) :
  b ∈ backends s ↔
  ∃ instances, (b, instances) ∈ catalogue s ∧ instance s ∈ instances.
Proof.
  unfold backends. rewrite list_elem_of_fmap. split.
  - intros ([b' instances] & -> & Hin). apply list_elem_of_filter in Hin as [Hav Hin].
    exists instances. split; [done|].
    unfold available in Hav. by apply bool_decide_eq_true in Hav.
  - intros (instances & Hin & Hav). exists (b, instances). split; [done|].
    apply list_elem_of_filter. split; [|done].
    unfold available. by apply bool_decide_eq_true.
Qed.

Example backends_tutorial :
  backends tutorial_service
  = [MkBackend "ibmq_qasm_simulator"; MkBackend "ibmq_manila"].
Proof. reflexivity. Qed.

(** Programs are never removed or replaced: an upload uses an identifier
    that is not in use, and runs and the remote side leave the registry
    alone. *)
Lemma service_step_programs s s' program_id p :
  service_step s s' →
  programs s !! program_id = Some p →
  programs s' !! program_id = Some p.
Proof.
  intros Hstep Hp. destruct Hstep as [data metadata s r s' Hup|pid options inputs s r s' Hrun|s s' Hrem].
  - unfold upload_program in Hup. destruct (program_name metadata) as [n|e].
    + injection Hup as <- <-. simpl. rewrite lookup_insert_ne; [done|].
      intros <-. apply elem_of_dom_2 in Hp.
      by apply fresh_string_of_set_fresh in Hp.
    + by injection Hup as <- <-.
  - unfold run in Hrun. destruct (programs s !! pid); by injection Hrun as <- <-.
  - by destruct Hrem.
Qed.

Lemma later_programs s s' program_id p :
  rtc service_step s s' →
  programs s !! program_id = Some p →
  programs s' !! program_id = Some p.
Proof.
  induction 1 as [|s s1 s' Hstep _ IH]; [done|].
  intros Hp. apply IH. by eapply service_step_programs.
Qed.

(** The dictionary that the metadata cell builds. *)
Lemma meta_value :
  Metadata.meta
  = OK (<["spec" := Metadata.dict
            [("parameters", Metadata.parameters);
             ("return_values", Metadata.return_values)]]>
          Metadata.initial_meta).
Proof.
  vm_compute. reflexivity.
Qed.

(** C5.  The metadata holds a name, a description, the execution-time limit
    1000, a parameter schema whose only required parameter is [circuits],
    and a return-value schema.  Uploading a program with it yields an
    identifier that was not in use and under which, whatever happens to the
    service afterwards, [run] submits a job for that program. *)
Theorem meta_upload_run :
  ∃ m spec params returns,
    Metadata.meta = OK m ∧
    m !! "name" = Some (VStr "sample-expval") ∧
    m !! "description" = Some (VStr "A sample expectation value program.") ∧
    m !! "max_execution_time" = Some (VInt 1000) ∧
    m !! "spec" = Some (VDict spec) ∧
    spec !! "parameters" = Some (VDict params) ∧
    params !! "required" = Some (VList [VStr "circuits"]) ∧
    spec !! "return_values" = Some (VDict returns) ∧
    ∀ data (s : service),
      ∃ program_id s',
        upload_program data m s = (OK program_id, s') ∧
        (program_id ∉ dom (programs s)) ∧
        programs s' !! program_id = Some (Program data m) ∧
        ∀ s'' options inputs,
          rtc service_step s' s'' →
          run program_id options inputs s''
          = (OK (length (jobs s'')),
             set_jobs (λ js, js ++ [Job (RunRequest program_id options inputs) Pending]) s'').
Proof.
  eexists _, _, _, _. split; [apply meta_value|].
  split; [done|]. split; [done|]. split; [done|].
  split; [apply lookup_insert_eq|].
  split; [done|]. split; [done|]. split; [done|].
  intros data s. eexists _, _. split; [reflexivity|]. simpl.
  split; [apply fresh_string_of_set_fresh|].
  split; [apply lookup_insert_eq|].
  intros s'' options inputs Hlater.
  unfold run. erewrite later_programs; [done|done|]. apply lookup_insert_eq.
Qed.

(** *** Jobs *)

Lemma run_submitted program_id options inputs s i s' p :
  programs s !! program_id = Some p →
  run program_id options inputs s = (OK i, s') →
  submitted p (RunRequest program_id options inputs) i s'.
Proof.
  intros Hp. unfold run. rewrite Hp. intros [= <- <-].
  split; [done|]. eexists. simpl. split.
  - by rewrite lookup_app_r, Nat.sub_diag.
  - by auto.
Qed.

Lemma remote_step_submitted p request i s s' :
  remote_step s s' → submitted p request i s → submitted p request i s'.
Proof.
  intros [s0 i' j' Hj' Hpending] (Hp & j & Hj & Hreq & Hstatus).
  split; [done|]. simpl.
  destruct (decide (i' = i)) as [->|Hne].
  - eexists. split.
    { apply list_lookup_insert_eq. by eapply lookup_lt_Some. }
    simplify_eq. simpl. split; [done|]. right.
    unfold outcome. by rewrite Hp.
  - exists j. by rewrite list_lookup_insert_ne.
Qed.

Lemma service_step_submitted p request i s s' :
  service_step s s' → submitted p request i s → submitted p request i s'.
Proof.
  intros Hstep Hsub. destruct Hstep as [data metadata s r s' Hup|pid options inputs s r s' Hrun|s s' Hrem].
  - destruct Hsub as (Hp & j & Hj & Hreq & Hstatus). split.
    + eapply service_step_programs; [by eapply step_upload|done].
    + unfold upload_program in Hup. destruct (program_name metadata);
        injection Hup as <- <-; eauto.
  - destruct Hsub as (Hp & j & Hj & Hreq & Hstatus). split.
    + eapply service_step_programs; [by eapply step_run|done].
    + unfold run in Hrun. destruct (programs s !! pid);
        injection Hrun as <- <-; simpl; [|by eauto].
      exists j. split; [|done]. by apply lookup_app_l_Some.
  - by eapply remote_step_submitted.
Qed.

Lemma later_submitted p request i s s' :
  rtc service_step s s' → submitted p request i s → submitted p request i s'.
Proof.
  induction 1 as [|s s1 s' Hstep _ IH]; [done|].
  intros Hsub. apply IH. by eapply service_step_submitted.
Qed.

Lemma result_submitted p request i s r s' :
  result i s r s' →
  submitted p request i s →
  submitted p request i s' ∧
  (∃ j, jobs s' !! i = Some j ∧ job_status_of j = Completed r) ∧
  r = program_entry p (req_options request) (req_inputs request).
Proof.
  induction 1 as [s j r Hj Hdone|s s1 s' j r Hj Hpending Hstep _ IH]; intros Hsub.
  - split; [done|]. split; [by eauto|].
    destruct Hsub as (_ & j' & Hj' & _ & [Hst|Hst]); simplify_eq; congruence.
  - apply IH. by eapply remote_step_submitted.
Qed.

Lemma result_returns p request i s :
  submitted p request i s → ∃ r s', result i s r s'.
Proof.
  intros (Hp & j & Hj & Hreq & [Hst|Hst]).
  - eexists _, _.
    eapply (result_wait i s _ _ j);
      [exact Hj|exact Hst|exact (complete_job s i j Hj Hst)|].
    eapply (result_ready i _ (Job (job_request j) _)); [|reflexivity].
    simpl. apply list_lookup_insert_eq. by eapply lookup_lt_Some.
  - eexists _, _. by eapply (result_ready i s j).
Qed.

(** A pending job yields no result in the state where it is pending. *)
Lemma result_not_before_completion i s j r :
  jobs s !! i = Some j → job_status_of j = Pending → ¬ result i s r s.
Proof.
  intros Hj Hpending Hres.
  assert (∀ s1 s2, result i s1 r s2 →
            ∃ j2, jobs s2 !! i = Some j2 ∧ job_status_of j2 = Completed r)
    as Hdone.
  { induction 1; eauto. }
  destruct (Hdone _ _ Hres) as (j2 & Hj2 & Hst). simplify_eq. congruence.
Qed.

(** C7.  For the job handle that [service.run] returned, and whatever
    happened to the service since: [result()] does return; and whenever it
    returns, the job is completed in the state in which it returns, with the
    value returned, which is what the program returns on the request's
    options and inputs; while the job is pending, no result is obtained
    without waiting for the remote side. *)
Theorem result_blocks_until_completed program_id options inputs p i
    (s0 s1 s : service) :
  programs s0 !! program_id = Some p →
  run program_id options inputs s0 = (OK i, s1) →
  rtc service_step s1 s →
  (∃ r s', result i s r s') ∧
  (∀ r s', result i s r s' →
     (∃ j, jobs s' !! i = Some j ∧ job_status_of j = Completed r) ∧
     r = program_entry p options inputs) ∧
  (∀ j r, jobs s !! i = Some j → job_status_of j = Pending → ¬ result i s r s).
Proof.
  intros Hp Hrun Hlater.
  assert (submitted p (RunRequest program_id options inputs) i s) as Hsub.
  { eapply later_submitted; [done|]. by eapply run_submitted. }
  split; [by eapply result_returns|]. split.
  - intros r s' Hres.
    by destruct (result_submitted _ _ _ _ _ _ Hres Hsub) as (_ & ? & ?).
  - intros j r. apply result_not_before_completion.
Qed.

Lemma result_blocks_until_completed_witness :
  let program_id := "sample-expval-RL2YzPQEe1" in
  let s1 := (run program_id ∅ ∅ tutorial_service).2 in
  programs tutorial_service !! program_id = Some tutorial_program ∧
  run program_id ∅ ∅ tutorial_service = (OK 0%nat, s1) ∧
  (∃ r s', result 0 s1 r s') ∧
  (∀ r s', result 0 s1 r s' →
     (∃ j, jobs s' !! 0%nat = Some j ∧ job_status_of j = Completed r) ∧
     r = program_entry tutorial_program ∅ ∅) ∧
  (∀ j r, jobs s1 !! 0%nat = Some j → job_status_of j = Pending → ¬ result 0 s1 r s1).
Proof.
  intros program_id s1. split; [reflexivity|]. split; [reflexivity|].
  apply (result_blocks_until_completed program_id ∅ ∅ tutorial_program 0
           tutorial_service s1 s1);
    [reflexivity|reflexivity|apply rtc_refl].
Defined.

(** The first run of the tutorial, end to end on the ideal backend: the
    projectors on all zeros and all ones and [ZZZZ] on a 4-qubit GHZ state
    give 1/2, 1/2 and 1. *)
Example tutorial_first_job :
  let operators :=
    PyList [OpDict {["0000" := 1%Z]}; OpDict {["1111" := 1%Z]}; OpStr "ZZZZ"] in
  let call :=
    expectation_value_runner "sample-expval-RL2YzPQEe1"
      (BackendStr "ibmq_qasm_simulator") (Bare ghz4) operators
      8192 ∅ ∅ false false false tutorial_service in
  call.1 = OK 0%nat ∧
  ∀ r s', result 0 call.2 r s' → r = OK (Expvals (PyList [1 # 2; 1 # 2; 1]%Q)).
Proof.
  intros operators call. split; [reflexivity|]. intros r s' Hres.
  pose proof (run_submitted "sample-expval-RL2YzPQEe1"
                {["backend_name" := "ibmq_qasm_simulator"]}
                (make_inputs (Bare ghz4) operators 8192 ∅ ∅ false false false)
                tutorial_service 0 call.2 tutorial_program eq_refl eq_refl)
    as Hsub.
  destruct (result_submitted _ _ _ _ _ _ Hres Hsub) as (_ & _ & ->).
  vm_compute. reflexivity.
Qed.

End service_facts.

(** ** The Estimator primitive *)

Section estimator_facts.
Import Estimator.

Lemma mapM_ok_lookup {A B} (f : A → res B) l l' i x :
  mapM f l = OK l' → l !! i = Some x → ∃ y, l' !! i = Some y ∧ f x = OK y.
Proof.
  revert l' i. induction l as [|a l IH]; intros l' i; simpl; [done|].
  intros (y & Hy & (k & Hk & [= <-])%bind_ok)%bind_ok.
  destruct i as [|i]; simpl.
  - intros [= ->]. eauto.
  - by apply IH.
Qed.

Lemma mapM_ok_total {A B} (f : A → res B) l :
  Forall (λ x, is_ok (f x) = true) l → ∃ l', mapM f l = OK l'.
Proof.
  induction 1 as [|a l Ha _ [l' IH]]; simpl; [by eexists|].
  destruct (f a) as [y|] eqn:Hy; [|done]. rewrite IH. simpl. by eexists.
Qed.

Lemma zip3_length {A B C} (l1 : list A) (l2 : list B) (l3 : list C) :
  length l2 = length l1 → length l3 = length l1 →
  length (zip3 l1 l2 l3) = length l1.
Proof.
  revert l2 l3. induction l1 as [|a l1 IH]; intros [|b l2] [|c l3]; simpl; try done.
  intros [= ?] [= ?]. by rewrite IH.
Qed.

Lemma zip3_lookup {A B C} (l1 : list A) (l2 : list B) (l3 : list C) i a b c :
  l1 !! i = Some a → l2 !! i = Some b → l3 !! i = Some c →
  zip3 l1 l2 l3 !! i = Some (a, b, c).
Proof.
  revert l2 l3 i. induction l1 as [|a' l1 IH]; intros [|b' l2] [|c' l3] [|i];
    simpl; try done.
  - by intros [= ->] [= ->] [= ->].
  - apply IH.
Qed.

Variable estimate : QuantumCircuit → Observable → list Q → Q * Q.

(** C4.  Called with [k] circuits, [k] observables and [k] lists of
    parameter values, the estimator returns a result whenever every index
    refers to a circuit or observable of the session, and a result it
    returns holds exactly [k] values and [k] metadata entries; every entry
    has a variance and a shot count; and the [i]-th value and entry are
    those of the [i]-th circuit, observable and parameter values. *)
Theorem estimator_results (e : session) circuits observables parameter_values k :
  length circuits = k →
  length observables = k →
  length parameter_values = k →
  (Forall (λ r, resolved (session_circuits e) r = true) circuits →
   Forall (λ r, resolved (session_observables e) r = true) observables →
   ∃ r, estimator estimate e circuits observables parameter_values = OK r) ∧
  ∀ r, estimator estimate e circuits observables parameter_values = OK r →
    length (values r) = k ∧
    length (metadata r) = k ∧
    Forall (λ entry, ∃ variance shots,
              entry !! "variance" = Some (VFloat variance) ∧
              entry !! "shots" = Some (VInt shots)) (metadata r) ∧
    ∀ i circuit observable parameters,
      circuits !! i = Some circuit →
      observables !! i = Some observable →
      parameter_values !! i = Some parameters →
      ∃ c o,
        resolve (session_circuits e) circuit = OK c ∧
        resolve (session_observables e) observable = OK o ∧
        values r !! i = Some (estimate c o parameters).1 ∧
        metadata r !! i
        = Some (metadata_entry (estimate c o parameters).2 (session_shots e)).
Proof.
  intros Hc Ho Hp. unfold estimator.
  assert ((length circuits =? length observables)%nat = true) as ->
    by (apply Nat.eqb_eq; congruence).
  assert ((length circuits =? length parameter_values)%nat = true) as ->
    by (apply Nat.eqb_eq; congruence).
  simpl. split.
  - intros Hcs Hos.
    destruct (mapM_ok_total _ _ Hcs) as [cs ->].
    destruct (mapM_ok_total _ _ Hos) as [os ->].
    simpl. by eexists.
  - intros r (cs & Hcs & (os & Hos & [= <-])%bind_ok)%bind_ok. simpl.
    pose proof (mapM_ok_length _ _ _ Hcs) as Hlc.
    pose proof (mapM_ok_length _ _ _ Hos) as Hlo.
    rewrite !length_fmap, zip3_length by congruence.
    split; [congruence|]. split; [congruence|]. split.
    + apply Forall_fmap, Forall_forall. intros [v var] _. simpl.
      exists var, (session_shots e). unfold metadata_entry.
      by simplify_map_eq.
    + intros i cref oref params Hci Hoi Hpi.
      destruct (mapM_ok_lookup _ _ _ _ _ Hcs Hci) as (c & Hc' & Hrc).
      destruct (mapM_ok_lookup _ _ _ _ _ Hos Hoi) as (o & Ho' & Hro).
      exists c, o. split; [done|]. split; [done|].
      rewrite !list_lookup_fmap, (zip3_lookup _ _ _ _ _ _ _ Hc' Ho' Hpi).
      done.
Qed.

End estimator_facts.

Section estimator_examples.
Import Estimator.

Lemma estimator_results_witness :
  let circuits := [Index 0; Index 1; Object psi1] in
  let observables := [Index 0; Object H2; Index 2] in
  let parameter_values := [theta1; theta2; theta3] in
  let call := estimator coefficient_sum tutorial_session circuits observables in
  (length circuits = 3%nat ∧ length observables = 3%nat ∧
   length parameter_values = 3%nat) ∧
  (Forall (λ r, resolved (session_circuits tutorial_session) r = true) circuits →
   Forall (λ r, resolved (session_observables tutorial_session) r = true) observables →
   ∃ r, call parameter_values = OK r) ∧
  ∀ r, call parameter_values = OK r →
    length (values r) = 3%nat ∧
    length (metadata r) = 3%nat ∧
    Forall (λ entry, ∃ variance shots,
              entry !! "variance" = Some (VFloat variance) ∧
              entry !! "shots" = Some (VInt shots)) (metadata r) ∧
    ∀ i circuit observable parameters,
      circuits !! i = Some circuit →
      observables !! i = Some observable →
      parameter_values !! i = Some parameters →
      ∃ c o,
        resolve (session_circuits tutorial_session) circuit = OK c ∧
        resolve (session_observables tutorial_session) observable = OK o ∧
        values r !! i = Some (coefficient_sum c o parameters).1 ∧
        metadata r !! i
        = Some (metadata_entry (coefficient_sum c o parameters).2
                  (session_shots tutorial_session)).
Proof.
  intros circuits observables parameter_values call.
  split; [by repeat split|].
  apply (estimator_results coefficient_sum tutorial_session circuits
           observables parameter_values 3); reflexivity.
Defined.

(** The last call of the tutorial returns three values and three metadata
    entries. *)
Example estimator_three_results :
  estimator coefficient_sum tutorial_session
    [Index 0; Index 1; Index 0] [Index 0; Index 1; Index 2]
    [theta1; theta2; theta3]
  = OK (MkEstimatorResult [6; 1; 2]%Q
          [metadata_entry 0 1024; metadata_entry 0 1024; metadata_entry 0 1024]).
Proof. reflexivity. Qed.

(** An index outside the session makes the call raise. *)
Example estimator_bad_index :
  estimator coefficient_sum tutorial_session [Index 2] [Index 0] [theta1]
  = Raise (ValueError "index out of range").
Proof. reflexivity. Qed.

End estimator_examples.

(** ** More on [heavy_projector] *)

Section heavy_projector_more.
Import QuantumVolume.
Local Open Scope Q_scope.





(** X3.  The heavy set is closed upwards: if an output is heavy, every
    output that is at least as probable is heavy too. *)
Theorem heavy_projector_upward_closed (qv_probs : gmap string Q)
    key key' val val' :
  qv_probs !! key = Some val →
  qv_probs !! key' = Some val' →
  val <= val' →
  key ∈ dom (heavy_projector qv_probs) →
  key' ∈ dom (heavy_projector qv_probs).
Proof.
  intros Hk Hk' Hle. unfold heavy_projector. rewrite !loop_dom, dom_empty.
  intros [H|(v & Hin & Habove)]; [by apply not_elem_of_empty in H|].
  apply elem_of_map_to_list in Hin. simplify_eq.
  right. exists val'. split; [by apply elem_of_map_to_list|].
  destruct (median (HeavyProjector.values qv_probs)) as [m|]; [|done].
  apply above_spec. apply above_spec in Habove. by eapply Qlt_le_trans.
Qed.

Lemma heavy_projector_upward_closed_witness :
  sample_probs !! "01"%string = Some (1 # 4) ∧
  sample_probs !! "00"%string = Some (1 # 2) ∧
  1 # 4 <= 1 # 2 ∧
  "01"%string ∈ dom (heavy_projector sample_probs) ∧
  "00"%string ∈ dom (heavy_projector sample_probs).
Proof.
  assert ("01"%string ∈ dom (heavy_projector sample_probs)) as Hin.
  { apply elem_of_dom. by exists 1%Z. }
  assert (1 # 4 <= 1 # 2) as Hle by (by vm_compute).
  split; [reflexivity|]. split; [reflexivity|].
  split; [exact Hle|]. split; [exact Hin|].
  exact (heavy_projector_upward_closed sample_probs "01" "00" (1 # 4) (1 # 2)
           eq_refl eq_refl Hle Hin).
Defined.

End heavy_projector_more.

(** ** More on [expectation_value_runner] *)

Section runner_more.

(** What the validation block yields when it does not raise. *)
Lemma validate_ok circuits expectation_operators ops' :
  validate circuits expectation_operators = OK ops' →
  ops' = expectation_operators ∨
  ∃ cs op, circuits = PyList cs ∧ expectation_operators = PyList [op] ∧
           length cs ≠ 1%nat ∧ ops' = PyList (replicate (length cs) op).
Proof.
  unfold validate.
  destruct circuits as [c|cs]; [intros [= <-]; by left|].
  destruct (length cs =? 1)%nat eqn:Hcs; simpl; [intros [= <-]; by left|].
  destruct expectation_operators as [o|ops]; [intros [= <-]; by left|].
  destruct (length ops =? 1)%nat eqn:Hops; simpl.
  - intros [= <-]. right. apply Nat.eqb_neq in Hcs. apply Nat.eqb_eq in Hops.
    destruct ops as [|op [|]]; simplify_eq/=. exists cs, op.
    by rewrite list_mul_singleton.
  - destruct (length cs =? length ops)%nat; simpl; [|done].
    intros [= <-]. by left.
Qed.

(** X5.  What a call of the runner with a backend given by name does, case
    by case.  Circuits and operators both lists, the circuits not of length
    one: with operators of another length, not one, the call raises
    [ValueError] and leaves the service as it was; with one operator, the
    call is [service.run] with that operator repeated once per circuit;
    with as many operators as circuits, it is [service.run] with the
    operators as given.  Circuits bare or a one-element list, or operators
    not a list: it is [service.run] with the operators as given.  The
    options hold the backend's name and nothing else. *)
Theorem runner_outcome program_id backend_name circuits expectation_operators
    shots transpiler_config run_config skip_transpilation return_stddev
    use_measurement_mitigation (s : service) :
  let call :=
    expectation_value_runner program_id (BackendStr backend_name) circuits
      expectation_operators shots transpiler_config run_config
      skip_transpilation return_stddev use_measurement_mitigation s in
  let forward ops :=
    run program_id {["backend_name" := backend_name]}
      (make_inputs circuits ops shots transpiler_config run_config
         skip_transpilation return_stddev use_measurement_mitigation) s in
  (∀ cs ops,
     circuits = PyList cs → expectation_operators = PyList ops →
     length cs ≠ 1%nat → length ops ≠ 1%nat → length ops ≠ length cs →
     call = (Raise (ValueError mismatch_message), s)) ∧
  (∀ cs op,
     circuits = PyList cs → expectation_operators = PyList [op] →
     length cs ≠ 1%nat →
     call = forward (PyList (replicate (length cs) op))) ∧
  (∀ cs ops,
     circuits = PyList cs → expectation_operators = PyList ops →
     length cs ≠ 1%nat → length ops = length cs →
     call = forward expectation_operators) ∧
  (∀ cs, circuits = PyList cs → length cs = 1%nat →
         call = forward expectation_operators) ∧
  (∀ c, circuits = Bare c → call = forward expectation_operators) ∧
  (∀ op, expectation_operators = Bare op →
         call = forward expectation_operators).
Proof.
  intros call forward. subst call forward.
  unfold expectation_value_runner, validate.
  split; [|split; [|split; [|split; [|split]]]].
  - intros cs ops -> -> Hcs Hops Hlen.
    apply Nat.eqb_neq in Hcs, Hops. rewrite Hcs, Hops. simpl.
    assert ((length cs =? length ops)%nat = false) as ->
      by (apply Nat.eqb_neq; congruence).
    done.
  - intros cs op -> -> Hcs. apply Nat.eqb_neq in Hcs. rewrite Hcs. simpl.
    by rewrite list_mul_singleton.
  - intros cs ops -> -> Hcs Hlen.
    assert ((length ops =? 1)%nat = false) as Hops
      by (apply Nat.eqb_neq; congruence).
    apply Nat.eqb_neq in Hcs. rewrite Hcs, Hops, Hlen, Nat.eqb_refl. done.
  - intros cs -> Hcs. apply Nat.eqb_eq in Hcs. by rewrite Hcs.
  - by intros c ->.
  - intros op ->. destruct circuits as [c|cs]; [done|].
    by destruct (length cs =? 1)%nat.
Qed.

(** X6.  Given a list of circuits not of length one and a list of operators
    that has one element or as many as there are circuits, the runner calls
    [service.run] with exactly one operator per circuit, each of them one of
    the operators given.  For the empty list of circuits and one operator
    the forwarded list of operators is therefore empty. *)
Theorem runner_one_operator_per_circuit program_id backend_name cs ops shots
    transpiler_config run_config skip_transpilation return_stddev
    use_measurement_mitigation (s : service) :
  length cs ≠ 1%nat →
  length ops = 1%nat ∨ length ops = length cs →
  ∃ forwarded,
    expectation_value_runner program_id (BackendStr backend_name) (PyList cs)
      (PyList ops) shots transpiler_config run_config skip_transpilation
      return_stddev use_measurement_mitigation s
    = run program_id {["backend_name" := backend_name]}
        (make_inputs (PyList cs) (PyList forwarded) shots transpiler_config
           run_config skip_transpilation return_stddev
           use_measurement_mitigation) s ∧
    length forwarded = length cs ∧
    Forall (λ op, op ∈ ops) forwarded.
Proof.
  intros Hcs Hops. unfold expectation_value_runner, validate.
  apply Nat.eqb_neq in Hcs. rewrite Hcs. simpl.
  destruct (length ops =? 1)%nat eqn:Hone; simpl.
  - apply Nat.eqb_eq in Hone. destruct ops as [|op [|]]; simplify_eq/=.
    rewrite list_mul_singleton. eexists. split; [reflexivity|].
    split; [by rewrite length_replicate|].
    apply Forall_replicate. by left.
  - destruct Hops as [Hops|Hops]; [apply Nat.eqb_neq in Hone; lia|].
    rewrite Hops, Nat.eqb_refl. simpl. eexists. split; [reflexivity|].
    split; [done|]. by apply Forall_forall.
Qed.

Lemma runner_one_operator_per_circuit_witness :
  length (@nil QuantumCircuit) ≠ 1%nat ∧
  (length [OpStr "ZZZZ"] = 1%nat ∨
   length [OpStr "ZZZZ"] = length (@nil QuantumCircuit)) ∧
  ∃ forwarded,
    expectation_value_runner "sample-expval-RL2YzPQEe1"
      (BackendStr "ibmq_qasm_simulator") (PyList []) (PyList [OpStr "ZZZZ"])
      8192 ∅ ∅ false false false tutorial_service
    = run "sample-expval-RL2YzPQEe1" {["backend_name" := "ibmq_qasm_simulator"]}
        (make_inputs (PyList []) (PyList forwarded) 8192 ∅ ∅
           false false false) tutorial_service ∧
    length forwarded = length (@nil QuantumCircuit) ∧
    Forall (λ op, op ∈ [OpStr "ZZZZ"]) forwarded.
Proof.
  assert (length (@nil QuantumCircuit) ≠ 1%nat) as Hcs by (simpl; lia).
  assert (length [OpStr "ZZZZ"] = 1%nat ∨
          length [OpStr "ZZZZ"] = length (@nil QuantumCircuit)) as Hops
    by (by left).
  split; [exact Hcs|]. split; [exact Hops|].
  exact (runner_one_operator_per_circuit "sample-expval-RL2YzPQEe1"
           "ibmq_qasm_simulator" [] [OpStr "ZZZZ"] 8192 ∅ ∅
           false false false tutorial_service Hcs Hops).
Defined.

(** With no circuit and one operator, the request is submitted with no
    operator. *)
Example runner_empty_circuits :
  let call :=
    expectation_value_runner "sample-expval-RL2YzPQEe1"
      (BackendStr "ibmq_qasm_simulator") (PyList []) (PyList [OpStr "ZZZZ"])
      8192 ∅ ∅ false false false tutorial_service in
  call.1 = OK 0%nat ∧
  (job_request <$> jobs call.2) !! 0%nat
  = Some (RunRequest "sample-expval-RL2YzPQEe1"
            {["backend_name" := "ibmq_qasm_simulator"]}
            (make_inputs (PyList []) (PyList []) 8192 ∅ ∅ false false false)).
Proof. split; reflexivity. Qed.

(** X7.  The inputs of a forwarded request have eight keys, one per
    argument of the runner other than the backend.  They are the
    parameters that the metadata's schema describes together with
    [skip_transpilation], which the schema does not describe; the required
    parameter of the schema is among them. *)
Theorem runner_inputs_and_schema circuits expectation_operators shots
    transpiler_config run_config skip_transpilation return_stddev
    use_measurement_mitigation :
  let inputs :=
    make_inputs circuits expectation_operators shots transpiler_config
      run_config skip_transpilation return_stddev use_measurement_mitigation in
  size inputs = 8%nat ∧
  ∃ schema properties,
    Metadata.parameters = VDict schema ∧
    schema !! "properties" = Some (VDict properties) ∧
    dom inputs = dom properties ∪ {["skip_transpilation"]} ∧
    ("skip_transpilation" ∉ dom properties) ∧
    schema !! "required" = Some (VList [VStr "circuits"]) ∧
    "circuits" ∈ dom inputs.
Proof.
  intros inputs. subst inputs. split.
  - apply (bool_decide_unpack _). vm_compute. reflexivity.
  - eexists _, _. split; [reflexivity|]. split; [reflexivity|].
    split; [|split; [|split]].
    + apply (bool_decide_unpack _). vm_compute. reflexivity.
    + apply (bool_decide_unpack _). vm_compute. reflexivity.
    + reflexivity.
    + apply (bool_decide_unpack _). vm_compute. reflexivity.
Qed.

End runner_more.

(** ** The Quantum Volume cells *)

Section quantum_volume_facts.
Import QuantumVolume.

Variable probabilities_dict : QuantumCircuit → gmap string Q.
Variable measure_all : QuantumCircuit → QuantumCircuit.
Variable program_id : string.

(** X8.  For any list of Quantum Volume circuits, one or none included, the
    submission [job3] passes the runner's validation: it is one call of
    [service.run] on [ibmq_manila] whose inputs hold the measured circuits
    and, in the same order, for each circuit the heavy-output projector of
    that circuit's ideal distribution. *)
Theorem job3_submits_projectors (qv_circs : list QuantumCircuit) (s : service) :
  let submitted_circuits := circs measure_all qv_circs in
  let projectors := OpDict <$> heavy_projectors probabilities_dict qv_circs in
  job3 probabilities_dict measure_all program_id qv_circs s
  = run program_id {["backend_name" := "ibmq_manila"]}
      (make_inputs (PyList submitted_circuits) (PyList projectors) 8192
         sabre_config ∅ false false false) s ∧
  length projectors = length submitted_circuits ∧
  ∀ i circ,
    qv_circs !! i = Some circ →
    submitted_circuits !! i = Some (measure_all circ) ∧
    projectors !! i = Some (OpDict (heavy_projector (probabilities_dict circ))).
Proof.
  intros submitted_circuits projectors.
  assert (length projectors = length submitted_circuits) as Hlen.
  { unfold projectors, submitted_circuits, heavy_projectors, ideal_probs, circs.
    by rewrite !length_fmap. }
  split; [|split; [done|]].
  - unfold job3, expectation_value_runner, validate.
    fold submitted_circuits projectors.
    destruct (length submitted_circuits =? 1)%nat eqn:Hone; simpl; [done|].
    rewrite Hlen, Hone, Nat.eqb_refl. done.
  - intros i circ Hi.
    unfold projectors, submitted_circuits, heavy_projectors, ideal_probs, circs.
    by rewrite !list_lookup_fmap, Hi.
Qed.

End quantum_volume_facts.

(** ** More on [main] *)

Section main_more.
Import Main.
Context `{L : Libraries}.

Lemma bind_raise {A B} (c : res A) (k : A → res B) e :
  c ≫= k = Raise e ↔ c = Raise e ∨ ∃ a, c = OK a ∧ k a = Raise e.
Proof.
  destruct c as [a|e']; simpl.
  - split; [eauto|]. by intros [?|(? & [= <-] & ?)].
  - split; [intros [= ->]; by left|]. by intros [[= ->]|(? & ? & ?)].
Qed.

Lemma fmap_raise {A B} (f : A → B) (c : res A) e :
  f <$> c = Raise e ↔ c = Raise e.
Proof.
  destruct c as [a|e']; simpl.
  - split; intros [=].
  - split; by intros [= ->].
Qed.

(** X9.  [main] raises exactly what the first failing library call raises,
    in the order of the calls, and raises for no other reason: the
    transpiler (never when transpilation is skipped, where the circuits are
    used as given); under mitigation the measurement mapping, the mitigator
    and its calibration, all before the circuits are run; the run itself,
    with or without mitigation; then, under mitigation, the correction, the
    collection built when results are duplicated and the expectation-value
    method, and without mitigation the expectation-value function. *)
Theorem main_raises_in_call_order backend user_messenger circuits
    expectation_operators shots transpiler_config run_config
    skip_transpilation return_stddev use_measurement_mitigation e :
  let trans :=
    transpiled backend circuits transpiler_config skip_transpilation in
  (trans = Raise e ↔
   skip_transpilation = false ∧
   transpile circuits backend transpiler_config = Raise e) ∧
  (skip_transpilation = true → trans = OK (as_list circuits)) ∧
  (main backend user_messenger circuits expectation_operators shots
     transpiler_config run_config skip_transpilation return_stddev
     use_measurement_mitigation
   = Raise e ↔
   trans = Raise e ∨
   ∃ trans_circuits,
     trans = OK trans_circuits ∧
     if use_measurement_mitigation then
       final_measurement_mapping trans_circuits = Raise e ∨
       ∃ meas_maps,
         final_measurement_mapping trans_circuits = OK meas_maps ∧
         (M3Mitigation backend = Raise e ∨
          ∃ mit,
            M3Mitigation backend = OK mit ∧
            (cals_from_system mit meas_maps = Raise e ∨
             ∃ calibrated,
               cals_from_system mit meas_maps = OK calibrated ∧
               (execute backend trans_circuits shots run_config = Raise e ∨
                ∃ raw_counts,
                  execute backend trans_circuits shots run_config = OK raw_counts ∧
                  (apply_correction calibrated raw_counts meas_maps return_stddev
                   = Raise e ∨
                   ∃ corrected,
                     apply_correction calibrated raw_counts meas_maps return_stddev
                     = OK corrected ∧
                     ((duplicate_flag expectation_operators trans_circuits = true ∧
                       QuasiCollection
                         (replicate (operators_len expectation_operators) corrected)
                       = Raise e) ∨
                      ∃ quasi_dists,
                        (if duplicate_flag expectation_operators trans_circuits
                         then QuasiCollection
                                (replicate (operators_len expectation_operators)
                                   corrected)
                              = OK quasi_dists
                         else quasi_dists = corrected) ∧
                        (if return_stddev
                         then quasi_expval_and_stddev quasi_dists
                                expectation_operators = Raise e
                         else quasi_expval quasi_dists expectation_operators
                              = Raise e))))))
     else
       execute backend trans_circuits shots run_config = Raise e ∨
       ∃ raw_counts,
         execute backend trans_circuits shots run_config = OK raw_counts ∧
         let items :=
           if duplicate_flag expectation_operators trans_circuits
           then PyList (replicate (operators_len expectation_operators) raw_counts)
           else Bare raw_counts in
         if return_stddev
         then expval_and_stddev items expectation_operators = Raise e
         else expval items expectation_operators = Raise e).
Proof.
  intros trans. subst trans. split; [|split].
  - unfold transpiled. destruct skip_transpilation; simpl.
    + split; [done|]. by intros [? _].
    + rewrite bind_raise. split.
      * intros [?|(? & _ & ?)]; done.
      * intros [_ ?]. by left.
  - by intros ->.
  - unfold main. rewrite bind_raise.
    apply or_iff_compat_l. apply exist_proper. intros trans_circuits.
    apply and_iff_compat_l.
    destruct use_measurement_mitigation.
    + rewrite bind_raise. split.
      * intros [Hcal|(cal & Hcal & Hrest)].
        -- apply bind_raise in Hcal as [?|(maps & Hmaps & Hmit)]; [by left|].
           right. exists maps. split; [done|].
           apply bind_raise in Hmit as [?|(mit & Hmit & Hc)]; [by left|].
           right. exists mit. split; [done|].
           apply bind_raise in Hc as [?|(? & _ & ?)]; [by left|done].
        -- apply bind_ok in Hcal as (maps & Hmaps & Hcal).
           apply bind_ok in Hcal as (mit & Hmit & Hcal).
           apply bind_ok in Hcal as (cali & Hcali & [= <-]).
           right. exists maps. split; [done|]. right. exists mit. split; [done|].
           right. exists cali. split; [done|].
           apply bind_raise in Hrest as [?|(raw & Hraw & Hrest)]; [by left|].
           right. exists raw. split; [done|].
           apply bind_raise in Hrest as [?|(q & Hq & Hrest)]; [by left|].
           right. exists q. split; [done|].
           rewrite list_mul_singleton in Hrest.
           apply bind_raise in Hrest as [Hdup|(q' & Hq' & Hrest)].
           ++ left. destruct (duplicate_flag _ _); done.
           ++ right. exists q'. split.
              ** destruct (duplicate_flag _ _); [done|]. by injection Hq' as <-.
              ** destruct return_stddev; by apply fmap_raise in Hrest.
      * intros [Hmm|(maps & Hmaps & [Hmit|(mit & Hmit & [Hcal|(cali & Hcal & Hrest)])])].
        -- left. apply bind_raise. by left.
        -- left. apply bind_raise. right. exists maps. split; [done|].
           apply bind_raise. by left.
        -- left. apply bind_raise. right. exists maps. split; [done|].
           apply bind_raise. right. exists mit. split; [done|].
           apply bind_raise. by left.
        -- right. exists (Some (maps, cali)). split.
           { rewrite Hmaps. simpl. rewrite Hmit. simpl. by rewrite Hcal. }
           destruct Hrest as [Hraw|(raw & Hraw & Hrest)];
             [apply bind_raise; by left|].
           apply bind_raise. right. exists raw. split; [done|].
           destruct Hrest as [Hq|(q & Hq & Hrest)]; [apply bind_raise; by left|].
           apply bind_raise. right. exists q. split; [done|].
           rewrite list_mul_singleton.
           destruct Hrest as [[Hflag Hdup]|(q' & Hq' & Hrest)].
           ++ apply bind_raise. left. by rewrite Hflag.
           ++ apply bind_raise. right. exists q'. split.
              ** destruct (duplicate_flag _ _); [done|]. by subst.
              ** destruct return_stddev; by apply fmap_raise.
    + simpl. rewrite bind_raise. apply or_iff_compat_l.
      apply exist_proper. intros raw. apply and_iff_compat_l.
      rewrite list_mul_singleton.
      destruct return_stddev; by rewrite fmap_raise.
Qed.

(** X10.  Unless the operators are a non-empty list and exactly one circuit
    is executed, nothing is duplicated: [main] returns exactly when the
    library, given the raw counts as returned by the backend (or, under
    mitigation, the corrected quasi-probabilities as returned by the
    mitigator), returns.  This covers a single operator given as a string or
    a dictionary, and the empty list of operators. *)
Theorem main_passes_data_unchanged backend user_messenger circuits
    expectation_operators shots transpiler_config run_config
    skip_transpilation return_stddev use_measurement_mitigation
    trans_circuits out :
  transpiled backend circuits transpiler_config skip_transpilation
    = OK trans_circuits →
  (∀ op ops, expectation_operators = PyList (op :: ops) →
             length trans_circuits ≠ 1%nat) →
  main backend user_messenger circuits expectation_operators shots
    transpiler_config run_config skip_transpilation return_stddev
    use_measurement_mitigation
  = OK out ↔
  ∃ raw_counts,
    execute backend trans_circuits shots run_config = OK raw_counts ∧
    if use_measurement_mitigation then
      ∃ meas_maps mit calibrated corrected,
        final_measurement_mapping trans_circuits = OK meas_maps ∧
        M3Mitigation backend = OK mit ∧
        cals_from_system mit meas_maps = OK calibrated ∧
        apply_correction calibrated raw_counts meas_maps return_stddev
          = OK corrected ∧
        if return_stddev then
          ∃ pairs,
            quasi_expval_and_stddev corrected expectation_operators = OK pairs ∧
            out = ExpvalsStddev pairs
        else
          ∃ vals,
            quasi_expval corrected expectation_operators = OK vals ∧
            out = Expvals vals
    else
      if return_stddev then
        ∃ pairs,
          expval_and_stddev (Bare raw_counts) expectation_operators = OK pairs ∧
          out = ExpvalsStddev pairs
      else
        ∃ vals,
          expval (Bare raw_counts) expectation_operators = OK vals ∧
          out = Expvals vals.
Proof.
  intros Ht Hops.
  assert (duplicate_flag expectation_operators trans_circuits = false) as Hdup.
  { unfold duplicate_flag. destruct expectation_operators as [op|[|op ops]]; try done.
    specialize (Hops op ops eq_refl). apply Nat.eqb_neq in Hops.
    by rewrite Hops. }
  destruct use_measurement_mitigation.
  - rewrite (proj1 (main_returns _ _ _ _ _ _ _ _ _ _)). split.
    + intros (trans & mm & mit & cali & raw & q & q' & Ht' & Hmm & Hmit & Hcal
               & Hraw & Hq & Hq' & Hout).
      rewrite Ht in Ht'. injection Ht' as <-. rewrite Hdup in Hq'. subst q'.
      exists raw. split; [done|]. exists mm, mit, cali, q. done.
    + intros (raw & Hraw & mm & mit & cali & q & Hmm & Hmit & Hcal & Hq & Hout).
      exists trans_circuits, mm, mit, cali, raw, q, q.
      rewrite Hdup. done.
  - rewrite (proj2 (main_returns _ _ _ _ _ _ _ _ _ _)). split.
    + intros (trans & raw & items & Ht' & Hraw & -> & Hout).
      rewrite Ht in Ht'. injection Ht' as <-. rewrite Hdup in Hout. eauto.
    + intros (raw & Hraw & Hout).
      exists trans_circuits, raw. eexists. repeat (split; [done|]).
      by rewrite Hdup.
Qed.

End main_more.

Section main_more_examples.
Import Main.

Lemma main_passes_data_unchanged_witness :
  let circuits := PyList [ghz4; ghz4] in
  let operators := Bare (OpStr "ZZZZ") in
  let out := Expvals (PyList [1; 1]%Q) in
  transpiled fake_santiago circuits ∅ true = OK [ghz4; ghz4] ∧
  (main fake_santiago Messenger circuits operators 8192 ∅ ∅ true false false
   = OK out ↔
   ∃ raw_counts,
     execute fake_santiago [ghz4; ghz4] 8192 ∅ = OK raw_counts ∧
     ∃ vals, expval (Bare raw_counts) operators = OK vals ∧ out = Expvals vals).
Proof.
  intros circuits operators out. split; [reflexivity|].
  apply (main_passes_data_unchanged (L := ideal) fake_santiago Messenger
           circuits operators 8192 ∅ ∅ true false false [ghz4; ghz4] out);
    [reflexivity|discriminate].
Defined.

(** When the backend is out of reach, [main] raises what the run raises,
    with or without mitigation. *)
Example main_backend_offline use_measurement_mitigation :
  @main Offline.offline fake_santiago Messenger (Bare ghz4)
    (PyList [OpStr "ZZZZ"]) 8192 ∅ ∅ false false use_measurement_mitigation
  = Raise (ExternalError "backend offline").
Proof. by destruct use_measurement_mitigation. Qed.

(** The empty list of operators is not duplicated either: on the ideal
    backend the library then rejects the call. *)
Example main_empty_operator_list :
  main fake_santiago Messenger (Bare ghz4) (PyList []) 8192 ∅ ∅ false false false
  = Raise (ExternalError "M3Error").
Proof. reflexivity. Qed.

End main_more_examples.

(** ** [heavy_projector] on IEEE doubles *)

Section float64_facts.
Import Floats Float64.
Local Open Scope float_scope.

(** The order of two doubles, neither of them NaN, is decided either way. *)
Lemma SFcompare_swap f1 f2 :
  SFcompare f2 f1 = option_map CompOpp (SFcompare f1 f2).
Proof.
  destruct f1 as [s1|s1| |s1 m1 e1], f2 as [s2|s2| |s2 m2 e2]; simpl;
    try done; try (by destruct s1); try (by destruct s2);
    try (by destruct s1, s2).
  change (PosDef.Pos.compare_cont Eq m1 m2) with (Pos.compare m1 m2).
  change (PosDef.Pos.compare_cont Eq m2 m1) with (Pos.compare m2 m1).
  rewrite (Z.compare_antisym e1 e2), (Pos.compare_antisym m1 m2).
  destruct s1, s2; simpl; try done;
    destruct (e1 ?= e2)%Z; simpl; try done;
    by destruct (m1 ?= m2)%positive.
Qed.

Lemma not_nan_compare x y :
  is_nan x = false → is_nan y = false →
  ∃ c, SFcompare (Prim2SF x) (Prim2SF y) = Some c.
Proof.
  unfold is_nan. rewrite !negb_false_iff, !FloatAxioms.eqb_spec. unfold SFeqb.
  destruct (Prim2SF x) as [| | |], (Prim2SF y) as [| | |]; simpl; try done; eauto.
Qed.

Lemma leb_total x y :
  is_nan x = false → is_nan y = false → (x <=? y) = false → (y <=? x) = true.
Proof.
  intros Hx Hy. rewrite !FloatAxioms.leb_spec. unfold SFleb.
  rewrite (SFcompare_swap (Prim2SF x) (Prim2SF y)).
  destruct (not_nan_compare x y Hx Hy) as [c ->]. by destruct c.
Qed.

Lemma float_insert_sorted_perm x l : insert_sorted x l ≡ₚ x :: l.
Proof.
  induction l as [|y l IH]; simpl; [done|].
  destruct (x <=? y); [done|]. by rewrite IH, Permutation_swap.
Qed.

Lemma float_sort_values_perm l : sort_values l ≡ₚ l.
Proof.
  induction l as [|x l IH]; simpl; [done|].
  by rewrite float_insert_sorted_perm, IH.
Qed.

Lemma float_insert_sorted_sorted x l :
  is_nan x = false → Forall (λ v, is_nan v = false) l →
  Sorted (λ a b, (a <=? b) = true) l →
  Sorted (λ a b, (a <=? b) = true) (insert_sorted x l).
Proof.
  intros Hx Hl. induction 1 as [|y l Hs IH Hhd]; simpl; [by repeat constructor|].
  apply Forall_cons in Hl as [Hy Hl].
  destruct (x <=? y) eqn:Hxy.
  - by repeat constructor.
  - constructor; [by apply IH|].
    destruct Hhd as [|z l Hyz]; simpl; [constructor; by apply leb_total|].
    destruct (x <=? z); constructor; [by apply leb_total|done].
Qed.

Lemma float_sort_values_sorted l :
  Forall (λ v, is_nan v = false) l →
  Sorted (λ a b, (a <=? b) = true) (sort_values l).
Proof.
  induction 1 as [|x l Hx Hl IH]; simpl; [constructor|].
  apply float_insert_sorted_sorted; [done| |done].
  by rewrite float_sort_values_perm.
Qed.

Lemma no_nan_existsb l :
  Forall (λ v, is_nan v = false) l → existsb is_nan l = false.
Proof. induction 1 as [|x l Hx _ IH]; simpl; [done|]. by rewrite Hx, IH. Qed.

(** The keys written by the loop are the keys already present plus the keys
    of the items above the threshold. *)
Lemma float_loop_dom median_prob items heavy_strs key :
  key ∈ dom (foldl (loop_body median_prob) heavy_strs items) ↔
  key ∈ dom heavy_strs ∨
  ∃ val, (key, val) ∈ items ∧ (median_prob <? val) = true.
Proof.
  revert heavy_strs.
  induction items as [|[k v] items IH]; intros heavy_strs; simpl.
  - split; [by left|]. intros [?|(? & H & _)]; [done|]. by apply elem_of_nil in H.
  - rewrite IH. setoid_rewrite elem_of_cons. destruct (median_prob <? v) eqn:Hv.
    + rewrite dom_insert, elem_of_union, elem_of_singleton. split.
      * intros [[->|?]|(val & ? & ?)]; eauto 6.
      * intros [?|(val & [[= -> ->]|?] & ?)]; eauto 6.
    + split.
      * intros [?|(val & ? & ?)]; eauto 6.
      * intros [?|(val & [[= -> ->]|?] & ?)]; [eauto 6|congruence|eauto 6].
Qed.

(** C1, as stated, fails on doubles.  [neighbour_probs] is a distribution:
    four different probabilities whose sum is 1.  The output [10] has a
    probability above the median of the four values, yet it is not a key of
    the result: the mean of the two middle values, which are neighbouring
    doubles, is rounded to the upper one, the probability of [10] itself. *)
Lemma heavy_projector_exact_median_counterexample :
  let exact := exact_probs neighbour_probs in
  size exact = 4%nat ∧
  (∃ p00 p01 p10 p11 m,
     exact !! "00"%string = Some p00 ∧ exact !! "01"%string = Some p01 ∧
     exact !! "10"%string = Some p10 ∧ exact !! "11"%string = Some p11 ∧
     (p00 < p01)%Q ∧ (p01 < p10)%Q ∧ (p10 < p11)%Q ∧
     (p00 + p01 + p10 + p11 == 1)%Q ∧
     HeavyProjector.median (HeavyProjector.values exact) = Some m ∧
     (m == (p01 + p10) / 2)%Q ∧ (m < p10)%Q) ∧
  median (values neighbour_probs) = 0x1.0000000000002p-2 ∧
  neighbour_probs !! "10"%string = Some 0x1.0000000000002p-2 ∧
  heavy_projector neighbour_probs !! "10"%string = None ∧
  map_to_list (heavy_projector neighbour_probs) = [("11"%string, 1%Z)].
Proof.
  intros exact. split; [by vm_compute|].
  split; [|repeat split; by vm_compute].
  eexists _, _, _, _, _.
  split; [by vm_compute|]. split; [by vm_compute|].
  split; [by vm_compute|]. split; [by vm_compute|].
  split; [by vm_compute|]. split; [by vm_compute|].
  split; [by vm_compute|]. split; [by vm_compute|].
  split; [by vm_compute|]. split; by vm_compute.
Qed.

(** C1, amended.  For a non-empty dictionary of doubles, none of them NaN,
    the keys of [heavy_projector qv_probs] are exactly the keys of
    [qv_probs] whose probability is above the median as [np.median]
    computes it: with the values put in order, the middle value when their
    number is odd, and when it is even the float64 mean of the two middle
    values, their sum divided by 2, both rounded. *)
Theorem heavy_projector_float64_keys (qv_probs : gmap string float) :
  qv_probs ≠ ∅ →
  map_Forall (λ _ val, is_nan val = false) qv_probs →
  ∃ sorted median_prob,
    sorted ≡ₚ values qv_probs ∧
    Sorted (λ a b, (a <=? b) = true) sorted ∧
    (if Nat.odd (length sorted)
     then sorted !! (length sorted / 2)%nat = Some median_prob
     else ∃ a b,
            sorted !! (length sorted / 2 - 1)%nat = Some a ∧
            sorted !! (length sorted / 2)%nat = Some b ∧
            median_prob = (a + b) / 2) ∧
    ∀ key, key ∈ dom (heavy_projector qv_probs) ↔
           ∃ val, qv_probs !! key = Some val ∧ (median_prob <? val) = true.
Proof.
  intros Hne Hnan.
  assert (Forall (λ v, is_nan v = false) (values qv_probs)) as Hvals.
  { unfold values. apply Forall_fmap, Forall_forall.
    intros [k v] Hkv%elem_of_map_to_list. by apply Hnan in Hkv. }
  assert (0 < length (sort_values (values qv_probs)))%nat as Hlen.
  { rewrite float_sort_values_perm. unfold values.
    rewrite length_fmap, length_map_to_list.
    destruct (decide (size qv_probs = 0%nat)) as [H0|]; [|lia].
    by apply map_size_empty_iff in H0. }
  exists (sort_values (values qv_probs)), (median (values qv_probs)).
  split; [apply float_sort_values_perm|].
  split; [by apply float_sort_values_sorted|]. split.
  - unfold median. rewrite no_nan_existsb by done. cbv zeta.
    set (s := sort_values (values qv_probs)) in *.
    assert (length s / 2 < length s)%nat as Hhi by (apply Nat.div_lt; lia).
    destruct (Nat.odd (length s)) eqn:Hodd.
    + destruct (lookup_lt_is_Some_2 s (length s / 2)%nat Hhi) as [x ->]. done.
    + destruct (lookup_lt_is_Some_2 s (length s / 2 - 1)%nat) as [a Ha]; [lia|].
      destruct (lookup_lt_is_Some_2 s (length s / 2)%nat Hhi) as [b Hb].
      rewrite Ha, Hb. by exists a, b.
  - intros key. unfold heavy_projector. rewrite float_loop_dom, dom_empty.
    split.
    + intros [H|(val & Hin & Habove)]; [by apply not_elem_of_empty in H|].
      exists val. split; [by apply elem_of_map_to_list|done].
    + intros (val & Hin & Habove). right. exists val.
      split; [by apply elem_of_map_to_list|done].
Qed.

Lemma heavy_projector_float64_keys_witness :
  neighbour_probs ≠ ∅ ∧
  map_Forall (λ _ val, is_nan val = false) neighbour_probs ∧
  ∃ sorted median_prob,
    sorted ≡ₚ values neighbour_probs ∧
    Sorted (λ a b, (a <=? b) = true) sorted ∧
    (if Nat.odd (length sorted)
     then sorted !! (length sorted / 2)%nat = Some median_prob
     else ∃ a b,
            sorted !! (length sorted / 2 - 1)%nat = Some a ∧
            sorted !! (length sorted / 2)%nat = Some b ∧
            median_prob = (a + b) / 2) ∧
    ∀ key, key ∈ dom (heavy_projector neighbour_probs) ↔
           ∃ val, neighbour_probs !! key = Some val ∧ (median_prob <? val) = true.
Proof.
  assert (neighbour_probs ≠ ∅) as Hne.
  { intros E. apply (f_equal (λ m : gmap string float, m !! "00"%string)) in E.
    vm_compute in E. discriminate. }
  assert (map_Forall (λ _ val, is_nan val = false) neighbour_probs) as Hnan.
  { unfold neighbour_probs. repeat apply map_Forall_insert_2; try reflexivity.
    apply map_Forall_empty. }
  split; [exact Hne|]. split; [exact Hnan|].
  exact (heavy_projector_float64_keys neighbour_probs Hne Hnan).
Defined.

(** The empty dictionary and a dictionary with a NaN give the empty
    result. *)
Example heavy_projector_float64_empty : heavy_projector ∅ = ∅.
Proof. reflexivity. Qed.

Example heavy_projector_float64_nan :
  heavy_projector (<["0" := nan]> (<["1" := 1]> ∅)) = ∅.
Proof. by vm_compute. Qed.

End float64_facts.
